(** * office-schedule: schedules, work reports and member management

    A shallow embedding of the route handlers of the application (the app
    shell layout, app/routes/_app.schedule.tsx, app/routes/_app.reports.tsx
    and the members route) together with the properties their
    specification states about them.

    Conventions of the model.
    - JavaScript strings are byte strings; lengths agree with JavaScript's
      on ASCII text, which is all the handlers measure (padStart, min(1)).
    - The month arithmetic of the Reports loader is done on integers far
      below 2^53, hence exact: there a number is [Some z], and [None] is
      NaN.  The minutes of the Reports page are JavaScript doubles; the page
      is given over any number type with its operations ([Numbers]), and
      what is stated of minutes and totals is stated for all of them.  The
      integers with NaN are the instance the samples are run with, and the
      one of a statement that names none.
    - The identity provider and the data store are external.  What they
      answer during one request is an explicit argument of each handler;
      the tables are lists of rows in insertion order.  How the store reads
      the text of a timestamp is its own matter ([Reading]); the reads are
      given for every such reading.  [Time.instant] is the one the samples
      are run with, and the one of a statement that names none. *)

From Stdlib Require Import ZArith Lia List String Ascii.
From stdpp Require Import base option strings gmap list sorting.

Local Open Scope string_scope.
Local Open Scope Z_scope.

(** ** JavaScript built-ins used by the handlers *)

Module JS.

(** A number: an integer, or NaN. *)
Definition num : Type := option Z.

Definition NaN : num := None.

Definition add (a b : num) : num :=
  match a, b with
  | Some x, Some y => Some (x + y)
  | _, _ => NaN
  end.

Definition sub (a b : num) : num :=
  match a, b with
  | Some x, Some y => Some (x - y)
  | _, _ => NaN
  end.

(** [a === b] on numbers: NaN is different from everything. *)
Definition strict_eq (a b : num) : bool :=
  match a, b with
  | Some x, Some y => x =? y
  | _, _ => false
  end.

Definition digit (c : ascii) : option Z :=
  let n := Z.of_nat (nat_of_ascii c) in
  if (48 <=? n) && (n <=? 57) then Some (n - 48) else None.

Fixpoint digits (s : string) (acc : Z) : option Z :=
  match s with
  | EmptyString => Some acc
  | String c rest =>
      match digit c with
      | Some d => digits rest (10 * acc + d)
      | None => None
      end
  end.

Definition unsigned (s : string) : option Z :=
  match s with
  | EmptyString => None
  | _ => digits s 0
  end.

(** [Number(s)] on the texts the month arithmetic of the loader meets, the
    integer literals: the empty string is 0, an optional sign may precede
    the decimal digits.  On these it is JavaScript's [Number].  Literals
    with blanks, a fraction, an exponent or a radix prefix are not
    represented (they are mapped to NaN here); nothing below is stated
    about the loader on such a month text, and the minutes of the Reports
    page are computed with the [to_number] of [Numbers] instead. *)
Definition Number (s : string) : num :=
  match s with
  | EmptyString => Some 0
  | String c rest =>
      if Ascii.eqb c "-" then Z.opp <$> unsigned rest
      else if Ascii.eqb c "+" then unsigned rest
      else unsigned s
  end.

Definition digit_char (d : Z) : ascii := ascii_of_nat (Z.to_nat (48 + d)).

Fixpoint render (fuel : nat) (n : Z) (acc : string) : string :=
  match fuel with
  | O => acc
  | S fuel' =>
      let acc' := String (digit_char (n mod 10)) acc in
      if n / 10 =? 0 then acc' else render fuel' (n / 10) acc'
  end.

(** Decimal digits of [n >= 0]; a number has no more decimal digits than
    binary ones, which bounds the recursion. *)
Definition decimal (n : Z) : string :=
  render (S (Z.to_nat (Z.log2 n))) n "".

(** [x.toString()] *)
Definition toString (x : num) : string :=
  match x with
  | None => "NaN"
  | Some z => if z <? 0 then "-" ++ decimal (- z) else decimal z
  end.

Fixpoint cycle (n : nat) (pad rest : string) : string :=
  match n with
  | O => ""
  | S n' =>
      match rest with
      | String c rest' => String c (cycle n' pad rest')
      | EmptyString =>
          match pad with
          | String c rest' => String c (cycle n' pad rest')
          | EmptyString => ""
          end
      end
  end.

(** [s.padStart(target, pad)] *)
Definition padStart (target : nat) (pad s : string) : string :=
  cycle (target - String.length s)%nat pad pad ++ s.

(** [a || b] on an optional string: null and the empty string are falsy. *)
Definition or_else (a : option string) (b : string) : string :=
  match a with
  | Some (String c r) => String c r
  | _ => b
  end.

End JS.

(** ** Numbers of the Reports page

    The page computes minutes with JavaScript's numbers, which are doubles.
    Their arithmetic is taken as an interface: the number values, the value
    of an integer, NaN, [a + b], [a - b] and [Number(s)]. *)

Class Numbers := {
  number : Type;
  integer : Z -> number;
  not_a_number : number;
  plus : number -> number -> number;
  minus : number -> number -> number;
  to_number : string -> number;
}.

(** The integers with NaN, the arithmetic of the samples.  A statement
    that names no arithmetic is read with this one. *)
#[global] Instance integers : Numbers := {|
  number := JS.num;
  integer := Some;
  not_a_number := JS.NaN;
  plus := JS.add;
  minus := JS.sub;
  to_number := JS.Number;
|}.

(** ** Instants

    The store keeps timestamps and date-fns parses them; both are external.
    [Time.instant] is a reading of the shapes the forms of the application
    post and the loader builds: [YYYY-MM-DD], optionally followed by
    [THH:MM] and [:SS], taken in one fixed time zone, as milliseconds since
    1970-01-01.  It gives no instant to a text of any other shape (a
    fraction of a second, a zone designator, a blank for the [T]) nor to
    one naming a day or an hour that does not exist.  It serves as the
    reading of the samples; the reads and the page are given for every
    reading. *)

Module Time.

Definition is_leap (y : Z) : bool :=
  (y mod 4 =? 0) && (negb (y mod 100 =? 0) || (y mod 400 =? 0)).

Definition days_in_month (y m : Z) : Z :=
  if m =? 2 then (if is_leap y then 29 else 28)
  else if (m =? 4) || (m =? 6) || (m =? 9) || (m =? 11) then 30
  else 31.

(** Days from 1970-01-01 to the civil date [y]-[m]-[d]. *)
Definition days_from_civil (y m d : Z) : Z :=
  let y' := if m <=? 2 then y - 1 else y in
  let era := y' / 400 in
  let yoe := y' - era * 400 in
  let mp := (m + 9) mod 12 in
  let doy := (153 * mp + 2) / 5 + d - 1 in
  let doe := yoe * 365 + yoe / 4 - yoe / 100 + doy in
  era * 146097 + doe - 719468.

(** Exactly [n] decimal digits at the head of [s]. *)
Fixpoint take_digits (n : nat) (s : string) (acc : Z) : option (Z * string) :=
  match n with
  | O => Some (acc, s)
  | S n' =>
      match s with
      | String c rest =>
          match JS.digit c with
          | Some d => take_digits n' rest (10 * acc + d)
          | None => None
          end
      | EmptyString => None
      end
  end.

Definition expect (c : ascii) (s : string) : option string :=
  match s with
  | String c' rest => if Ascii.eqb c c' then Some rest else None
  | EmptyString => None
  end.

Definition read_date (s : string) : option (Z * string) :=
  '(y, s) ← take_digits 4 s 0;
  s ← expect "-" s;
  '(m, s) ← take_digits 2 s 0;
  s ← expect "-" s;
  '(d, s) ← take_digits 2 s 0;
  if (1 <=? m) && (m <=? 12) && (1 <=? d) && (d <=? days_in_month y m)
  then Some (days_from_civil y m d, s)
  else None.

Definition valid_time (h mi sec : Z) : bool :=
  ((h <=? 23) && (mi <=? 59) && (sec <=? 59))
  || ((h =? 24) && (mi =? 0) && (sec =? 0)).

Definition read_time (s : string) : option Z :=
  s ← expect "T" s;
  '(h, s) ← take_digits 2 s 0;
  s ← expect ":" s;
  '(mi, s) ← take_digits 2 s 0;
  '(sec, s) ← match s with
              | EmptyString => Some (0, s)
              | _ => s ← expect ":" s; take_digits 2 s 0
              end;
  match s with
  | EmptyString =>
      if valid_time h mi sec then Some (((h * 60 + mi) * 60 + sec) * 1000)
      else None
  | _ => None
  end.

Definition instant (s : string) : option Z :=
  '(days, s) ← read_date s;
  match s with
  | EmptyString => Some (days * 86400000)
  | _ => ms ← read_time s; Some (days * 86400000 + ms)
  end.

End Time.

(** How the store reads the text of a timestamp, be it the value of a
    column or the literal of a filter: as milliseconds since 1970-01-01,
    or not at all. *)
Class Reading := read_instant : string -> option Z.

(** The reading of the samples.  A statement that names no reading is read
    with this one. *)
#[global] Instance instant_reading : Reading := Time.instant.

(** ** Tables of the data store *)

Record Profile := {
  profile_id : string;
  full_name : string;
  email : string;
  is_admin : bool;
  created_at : string;
}.

(** The fields of a schedule that the create form supplies. *)
Record ScheduleData := {
  start_time : string;
  end_time : string;
  location : string;
  description : string;
}.

(** [user_id] is null when the row was inserted without a current user. *)
Record Schedule := {
  sched_id : string;
  user_id : option string;
  sched_data :> ScheduleData;
}.

(** The fields of a report that the report form supplies. *)
Record ReportData := {
  actual_start_time : string;
  actual_end_time : string;
  break_time : string;
  actual_description : string;
  reflection : string;
}.

(** [schedule_id] is null when the form carried no such field. *)
Record Report := {
  report_id : string;
  schedule_id : option string;
  report_data :> ReportData;
}.

Record Store := {
  profiles : list Profile;
  schedules : list Schedule;
  reports : list Report;
}.

(** ** Requests and the answers of the external services *)

(** What the identity provider and the store answer during one request:
    the current user (auth.getUser), whether the store accepts the write
    the handler issues, and the id the store gives to an inserted row. *)
Record Env := {
  auth_user : option string;
  store_accepts : bool;
  fresh_id : string;
}.

(** Posted fields, text only; [get] gives the first value for a name and
    null for a missing one. *)
Definition FormData : Type := list (string * string).

Fixpoint formData_get (form : FormData) (name : string) : option string :=
  match form with
  | [] => None
  | (k, v) :: rest => if String.eqb k name then Some v else formData_get rest name
  end.

(** [intent === "..."] *)
Definition intent_is (intent : option string) (tag : string) : bool :=
  match intent with
  | Some s => String.eqb s tag
  | None => false
  end.

(** What a handler asks of the external services besides reads. *)
Inductive Call :=
| InsertSchedule (user : option string) (data : ScheduleData)
| InsertReport (schedule : option string) (data : ReportData)
| DeleteProfile (id : option string)
| SignInWithOtp (email full_name : string).

(** [.eq("id", key)]: a null key matches no row. *)
Definition id_matches (key : option string) (id : string) : bool :=
  match key with
  | Some k => String.eqb id k
  | None => false
  end.

(** The effect of an accepted call on the tables.  The schema of the store
    is not part of the sources: a call changes the one table it names (no
    cascade, no uniqueness), and whatever makes the store refuse a call is
    the answer [store_accepts]. *)
Definition perform (env : Env) (c : Call) (st : Store) : Store :=
  match c with
  | InsertSchedule user data =>
      {| profiles := profiles st;
         schedules := schedules st ++
           [{| sched_id := fresh_id env; user_id := user; sched_data := data |}];
         reports := reports st |}
  | InsertReport schedule data =>
      {| profiles := profiles st;
         schedules := schedules st;
         reports := reports st ++
           [{| report_id := fresh_id env; schedule_id := schedule;
               report_data := data |}] |}
  | DeleteProfile key =>
      {| profiles := List.filter (fun p => negb (id_matches key (profile_id p))) (profiles st);
         schedules := schedules st;
         reports := reports st |}
  | SignInWithOtp _ _ => st
  end.

(** [.from("profiles").select("is_admin").eq("id", user?.id).single()]:
    the row when exactly one matches, null otherwise. *)
Definition profile_of (user : option string) (st : Store) : option Profile :=
  match List.filter (fun p => id_matches user (profile_id p)) (profiles st) with
  | [p] => Some p
  | _ => None
  end.

(** [profile?.is_admin], as a condition. *)
Definition admin_flag (profile : option Profile) : bool :=
  match profile with
  | Some p => is_admin p
  | None => false
  end.

(** ** Validation (zod) *)

(** A message of [flatten().fieldErrors]: the library's own message for a
    value that is not a string, or the message the schema gives. *)
Inductive Message :=
| InvalidType
| Text (msg : string).

Inductive SafeParse (A : Type) :=
| ParseOk (data : A)
| ParseError (fieldErrors : list (string * list Message)).

Arguments ParseOk {A} data.
Arguments ParseError {A} fieldErrors.

(** [z.string()] *)
Definition z_string (v : option string) : list Message :=
  match v with
  | Some _ => []
  | None => [InvalidType]
  end.

(** [z.string().min(1, msg)] *)
Definition z_string_min1 (msg : string) (v : option string) : list Message :=
  match v with
  | Some EmptyString => [Text msg]
  | Some _ => []
  | None => [InvalidType]
  end.

(** Only the fields with an issue appear in [fieldErrors]. *)
Definition flatten (issues : list (string * list Message))
  : list (string * list Message) :=
  List.filter (fun fi => match snd fi with [] => false | _ => true end) issues.

Definition scheduleSchema_issues (start_time end_time location description : option string)
  : list (string * list Message) :=
  flatten [ ("start_time", z_string start_time);
            ("end_time", z_string end_time);
            ("location", z_string_min1 "場所を入力してください" location);
            ("description", z_string_min1 "業務内容を入力してください" description) ].

Definition scheduleSchema_safeParse
    (start_time end_time location description : option string)
  : SafeParse ScheduleData :=
  match scheduleSchema_issues start_time end_time location description,
        start_time, end_time, location, description with
  | [], Some s, Some e, Some l, Some d =>
      ParseOk {| start_time := s; end_time := e; location := l; description := d |}
  | issues, _, _, _, _ => ParseError issues
  end.

Definition reportSchema_issues
    (actual_start_time actual_end_time break_time actual_description reflection
       : option string)
  : list (string * list Message) :=
  flatten [ ("actual_start_time", z_string actual_start_time);
            ("actual_end_time", z_string actual_end_time);
            ("break_time", z_string break_time);
            ("actual_description",
              z_string_min1 "業務内容を入力してください" actual_description);
            ("reflection", z_string_min1 "振り返りを入力してください" reflection) ].

Definition reportSchema_safeParse
    (actual_start_time actual_end_time break_time actual_description reflection
       : option string)
  : SafeParse ReportData :=
  match reportSchema_issues actual_start_time actual_end_time break_time
          actual_description reflection,
        actual_start_time, actual_end_time, break_time, actual_description,
        reflection with
  | [], Some s, Some e, Some b, Some d, Some r =>
      ParseOk {| actual_start_time := s; actual_end_time := e; break_time := b;
                 actual_description := d; reflection := r |}
  | issues, _, _, _, _, _ => ParseError issues
  end.

(** ** Handlers: state, trace of calls, early return *)

(** What an action answers: [json({ errors })], [json({ error })] or
    [json({ success: true })]. *)
Inductive ActionData :=
| Errors (fieldErrors : list (string * list Message))
| Error (msg : string)
| Success.

(** What a loader answers. *)
Inductive LoaderResult (A : Type) :=
| Json (data : A)
| Redirect (path : string)
| Throw (msg : string).

Arguments Json {A} data.
Arguments Redirect {A} path.
Arguments Throw {A} msg.

Record World := {
  db : Store;
  trace : list Call;
}.

Inductive Step (A : Type) :=
| Return (r : ActionData)
| Next (a : A).

Arguments Return {A} r.
Arguments Next {A} a.

Definition Handler (A : Type) : Type := World -> World * Step A.

Definition pure {A} (a : A) : Handler A := fun w => (w, Next a).

(** [return json(...)] *)
Definition leave {A} (r : ActionData) : Handler A := fun w => (w, Return r).

Definition bind {A B} (h : Handler A) (k : A -> Handler B) : Handler B :=
  fun w =>
    match h w with
    | (w', Return r) => (w', Return r)
    | (w', Next a) => k a w'
    end.

Declare Scope handler_scope.
Delimit Scope handler_scope with handler.
Notation "'let*' x := h 'in' k" := (bind h (fun x => k))
  (at level 10, x name, h at level 100, k at level 200) : handler_scope.
Notation "h ;; k" := (bind h (fun _ => k))
  (at level 100, k at level 200, right associativity) : handler_scope.

(** [if (b) { ... }] *)
Definition when (b : bool) (h : Handler unit) : Handler unit :=
  if b then h else pure tt.

Definition read : Handler Store := fun w => (w, Next (db w)).

(** A write or an external call.  It is recorded; when the service accepts
    it the tables change, otherwise they do not and the handler sees an
    error ([true]). *)
Definition call (env : Env) (c : Call) : Handler bool :=
  fun w =>
    if store_accepts env
    then ({| db := perform env c (db w); trace := trace w ++ [c] |}, Next false)
    else ({| db := db w; trace := trace w ++ [c] |}, Next true).

Record Outcome := {
  calls : list Call;
  final : Store;
  answer : ActionData;
}.

Definition run (h : Handler ActionData) (st : Store) : Outcome :=
  match h {| db := st; trace := [] |} with
  | (w, Return r) => {| calls := trace w; final := db w; answer := r |}
  | (w, Next r) => {| calls := trace w; final := db w; answer := r |}
  end.

(** ** Reads with ordering and embedded rows *)

(** Ascending order on instants, rows without one last. *)
Definition key_le (a b : option Z) : bool :=
  match a, b with
  | Some x, Some y => x <=? y
  | Some _, None => true
  | None, Some _ => false
  | None, None => true
  end.

Section Order.

Context {A : Type} (key : A -> option Z).

Fixpoint insert_by (x : A) (l : list A) : list A :=
  match l with
  | [] => [x]
  | y :: rest =>
      if key_le (key x) (key y) then x :: l else y :: insert_by x rest
  end.

(** [.order(column)]: rows with equal keys keep their table order. *)
Fixpoint order_by (l : list A) : list A :=
  match l with
  | [] => []
  | x :: rest => insert_by x (order_by rest)
  end.

End Order.

(** A schedule with its embedded [profiles(full_name)]. *)
Record ScheduleJoined := {
  joined_schedule :> Schedule;
  joined_profiles : option string;
}.

(** A report with its embedded schedule, itself with [profiles(full_name)]. *)
Record ReportJoined := {
  joined_report :> Report;
  joined_schedules : option ScheduleJoined;
}.

Definition embed_profile (st : Store) (s : Schedule) : ScheduleJoined :=
  {| joined_schedule := s;
     joined_profiles :=
       full_name <$> List.find (fun p => id_matches (user_id s) (profile_id p))
                               (profiles st) |}.

Definition embed_schedule (st : Store) (r : Report) : ReportJoined :=
  {| joined_report := r;
     joined_schedules :=
       embed_profile st <$> List.find (fun s => id_matches (schedule_id r) (sched_id s))
                                      (schedules st) |}.

(** [.gte(column, lower).lt(column, upper)] on a row's instant. *)
Definition in_window (lower upper : Z) (t : option Z) : bool :=
  match t with
  | Some t => (lower <=? t) && (t <? upper)
  | None => false
  end.

(** The reports read of the Reports loader.  The store reads the two bound
    literals as instants; a literal it cannot read fails the query, which
    the loader sees as [data: null]. *)
Definition select_reports {reads : Reading} (lower upper : string) (st : Store)
  : option (list ReportJoined) :=
  lo ← read_instant lower;
  hi ← read_instant upper;
  Some (embed_schedule st <$>
          order_by (fun r : Report => read_instant (actual_start_time r))
            (List.filter
               (fun r : Report => in_window lo hi (read_instant (actual_start_time r)))
               (reports st))).

(** ** Schedule route (_app.schedule.tsx) *)

Module Schedule.

Local Open Scope handler_scope.

(** [scheduleSchema.safeParse({ start_time: formData.get("start_time"), ... })] *)
Definition create_payload (formData : FormData) : SafeParse ScheduleData :=
  scheduleSchema_safeParse
    (formData_get formData "start_time")
    (formData_get formData "end_time")
    (formData_get formData "location")
    (formData_get formData "description").

(** [reportSchema.safeParse({ actual_start_time: formData.get(...), ... })] *)
Definition report_payload (formData : FormData) : SafeParse ReportData :=
  reportSchema_safeParse
    (formData_get formData "actual_start_time")
    (formData_get formData "actual_end_time")
    (formData_get formData "break_time")
    (formData_get formData "actual_description")
    (formData_get formData "reflection").

Definition action (env : Env) (formData : FormData) : Handler ActionData :=
  let intent := formData_get formData "intent" in
  when (intent_is intent "create")
    (match create_payload formData with
     | ParseError fieldErrors => leave (Errors fieldErrors)
     | ParseOk data =>
         let* error := call env (InsertSchedule (auth_user env) data) in
         when error (leave (Error "予定の登録に失敗しました"))
     end) ;;
  when (intent_is intent "report")
    (let scheduleId := formData_get formData "schedule_id" in
     match report_payload formData with
     | ParseError fieldErrors => leave (Errors fieldErrors)
     | ParseOk data =>
         let* error := call env (InsertReport scheduleId data) in
         when error (leave (Error "実績の登録に失敗しました"))
     end) ;;
  pure Success.

(** A schedule with the reports embedded in it. *)
Record Listed := {
  listed_schedule :> Schedule;
  listed_reports : list Report;
}.

(** [.eq("user_id", user?.id)] *)
Definition owned_by (user : option string) (s : Schedule) : bool :=
  match user, user_id s with
  | Some u, Some owner => String.eqb owner u
  | _, _ => false
  end.

Definition embed_reports (st : Store) (s : Schedule) : Listed :=
  {| listed_schedule := s;
     listed_reports :=
       List.filter (fun r : Report => id_matches (schedule_id r) (sched_id s))
                   (reports st) |}.

Definition loader {reads : Reading} (env : Env) (st : Store)
  : LoaderResult (list Listed) :=
  Json (embed_reports st <$>
          order_by (fun s : Schedule => read_instant (start_time s))
            (List.filter (owned_by (auth_user env)) (schedules st))).

(** *** The page component: what each listed schedule offers *)

Section Page.

Variable parseISO : string -> option Z.

(** [isAfter(date, dateToCompare)]; a comparison with an Invalid Date is
    false. *)
Definition isAfter (date : Z) (dateToCompare : option Z) : bool :=
  match dateToCompare with
  | Some d => d <? date
  | None => false
  end.

(** [schedule.reports?.[0]] as a condition. *)
Definition has_report (schedule : Listed) : bool :=
  match listed_reports schedule with
  | [] => false
  | _ :: _ => true
  end.

(** The report button:
    [isAfter(new Date(), parseISO(schedule.end_time)) && !schedule.reports?.[0]]. *)
Definition report_button (now : Z) (schedule : Listed) : bool :=
  isAfter now (parseISO (end_time schedule)) && negb (has_report schedule).

(** The "reported" badge: [schedule.reports?.[0] && ...]. *)
Definition reported_badge (schedule : Listed) : bool :=
  has_report schedule.

End Page.

End Schedule.

(** ** Members route *)

Module Members.

Local Open Scope handler_scope.

Section Invite.

(** The shape test of [z.string().email()], which belongs to zod. *)
Variable is_email : string -> bool.

Definition z_string_email (msg : string) (v : option string) : list Message :=
  match v with
  | Some s => if is_email s then [] else [Text msg]
  | None => [InvalidType]
  end.

Record InviteData := {
  invite_email : string;
  invite_full_name : string;
}.

Definition inviteSchema_issues (email full_name : option string)
  : list (string * list Message) :=
  flatten [ ("email", z_string_email "有効なメールアドレスを入力してください" email);
            ("full_name", z_string_min1 "名前を入力してください" full_name) ].

Definition inviteSchema_safeParse (email full_name : option string)
  : SafeParse InviteData :=
  match inviteSchema_issues email full_name, email, full_name with
  | [], Some e, Some n => ParseOk {| invite_email := e; invite_full_name := n |}
  | issues, _, _ => ParseError issues
  end.

Definition action (env : Env) (formData : FormData) : Handler ActionData :=
  let* st := read in
  let profile := profile_of (auth_user env) st in
  when (negb (admin_flag profile))
    (leave (Error "管理者以外は実行できません")) ;;
  let intent := formData_get formData "intent" in
  when (intent_is intent "invite")
    (match inviteSchema_safeParse (formData_get formData "email")
                                  (formData_get formData "full_name") with
     | ParseError fieldErrors => leave (Errors fieldErrors)
     | ParseOk data =>
         let* signupError :=
           call env (SignInWithOtp (invite_email data) (invite_full_name data)) in
         when signupError (leave (Error "招待メールの送信に失敗しました"))
     end) ;;
  when (intent_is intent "delete")
    (let userId := formData_get formData "user_id" in
     let* error := call env (DeleteProfile userId) in
     when error (leave (Error "メンバーの削除に失敗しました"))) ;;
  pure Success.

End Invite.

Definition loader {reads : Reading} (env : Env) (st : Store)
  : LoaderResult (list Profile) :=
  let profile := profile_of (auth_user env) st in
  if negb (admin_flag profile) then Throw "管理者以外はアクセスできません"
  else Json (order_by (fun p => read_instant (created_at p)) (profiles st)).

(** *** The page component *)

(** [member.is_admin ? "管理者" : "一般"] *)
Definition role_label (member : Profile) : string :=
  if is_admin member then "管理者" else "一般".

Fixpoint field_errors_get (errors : list (string * list Message)) (field : string)
  : option (list Message) :=
  match errors with
  | [] => None
  | (k, msgs) :: rest =>
      if String.eqb k field then Some msgs else field_errors_get rest field
  end.

(** The paragraph under a field of the invite form,
    [actionData && "errors" in actionData && actionData.errors?.field &&
     <p>{actionData.errors.field[0]}</p>]:
    [None] when no paragraph is rendered, else its content. *)
Definition field_paragraph (actionData : option ActionData) (field : string)
  : option (option Message) :=
  match actionData with
  | Some (Errors errors) =>
      match field_errors_get errors field with
      | Some msgs => Some (head msgs)
      | None => None
      end
  | _ => None
  end.

End Members.

(** ** App shell layout *)

Module AppLayout.

(** [session.user.id] of the current session. *)
Record Session := {
  session_user : string;
}.

Record LayoutData := {
  layout_user : string;
  isAdmin : option bool;
}.

Definition loader (session : option Session) (st : Store) : LoaderResult LayoutData :=
  match session with
  | None => Redirect "/login"
  | Some session =>
      let profile := profile_of (Some (session_user session)) st in
      Json {| layout_user := session_user session;
              isAdmin := is_admin <$> profile |}
  end.

Inductive NavLink :=
| ScheduleLink
| ReportsLink
| MembersLink.

(** The links of the navigation bar: [{isAdmin && (<>...</>)}]. *)
Definition nav_links (data : LayoutData) : list NavLink :=
  ScheduleLink ::
  match isAdmin data with
  | Some true => [ReportsLink; MembersLink]
  | _ => []
  end.

End AppLayout.

(** ** Reports route (_app.reports.tsx) *)

Module Reports.

(** [new Date()]: the calendar year and the month counted from 0. *)
Record Clock := {
  getFullYear : Z;
  getMonth : Z;
}.

Definition URLSearchParams : Type := list (string * string).

Definition searchParams_get (params : URLSearchParams) (name : string)
  : option string :=
  formData_get params name.

Definition lower_bound (year month : string) : string :=
  year ++ "-" ++ JS.padStart 2 "0" month ++ "-01".

Definition upper_bound (year month : string) : string :=
  year ++ "-" ++
  (if JS.strict_eq (JS.add (JS.Number month) (Some 1)) (Some 13)
   then "01"
   else JS.padStart 2 "0" (JS.toString (JS.add (JS.Number month) (Some 1))))
  ++ "-01".

Record LoaderData := {
  data_reports : option (list ReportJoined);
  data_year : string;
  data_month : string;
}.

Definition loader {reads : Reading} (env : Env) (now : Clock) (params : URLSearchParams)
    (st : Store)
  : LoaderResult LoaderData :=
  let profile := profile_of (auth_user env) st in
  if negb (admin_flag profile) then Throw "管理者以外はアクセスできません"
  else
    let year :=
      JS.or_else (searchParams_get params "year")
                 (JS.toString (Some (getFullYear now))) in
    let month :=
      JS.or_else (searchParams_get params "month")
                 (JS.toString (JS.add (Some (getMonth now)) (Some 1))) in
    Json {| data_reports :=
              select_reports (lower_bound year month) (upper_bound year month) st;
            data_year := year;
            data_month := month |}.

(** *** The page component: grouping and worked minutes *)

Section Aggregation.

Context {N : Numbers}.

(** [parseISO] of date-fns as milliseconds since the epoch; [None] is an
    Invalid Date. *)
Variable parseISO : string -> option Z.

(** [differenceInMinutes(left, right)]: the number whose value is the
    difference in milliseconds over 60000, truncated toward zero; NaN when
    one of the dates is invalid.  (date-fns divides and truncates doubles,
    which gives this integer for dates less than 2^37 minutes, some
    260 000 years, apart.) *)
Definition differenceInMinutes (left right : option Z) : number :=
  match left, right with
  | Some l, Some r => integer (Z.quot (l - r) 60000)
  | _, _ => not_a_number
  end.

Record Group := {
  userName : string;
  group_reports : list ReportJoined;
  totalWorkMinutes : number;
}.

(** Property names every object literal inherits from Object.prototype;
    [acc[name]] is truthy for them although [acc] has no such entry. *)
Definition inherited : list string :=
  [ "constructor"; "__defineGetter__"; "__defineSetter__"; "hasOwnProperty";
    "__lookupGetter__"; "__lookupSetter__"; "isPrototypeOf";
    "propertyIsEnumerable"; "toString"; "valueOf"; "__proto__";
    "toLocaleString" ].

Definition is_inherited (name : string) : bool :=
  existsb (String.eqb name) inherited.

(** A null key is the property name "null". *)
Definition property_name (k : option string) : string :=
  match k with
  | Some s => s
  | None => "null"
  end.

(** One call of the reducer; [None] is a TypeError. *)
Definition reducer (acc : gmap string Group) (report : ReportJoined)
  : option (gmap string Group) :=
  joined_schedules report ≫= λ schedules : ScheduleJoined,
  let userId := property_name (user_id schedules) in
  acc ← match acc !! userId with
        | Some _ => Some acc
        | None =>
            if is_inherited userId then Some acc
            else
              full_name ← joined_profiles schedules;
              Some (<[userId := {| userName := full_name;
                                   group_reports := [];
                                   totalWorkMinutes := integer 0 |}]> acc)
        end;
  let workMinutes :=
    minus (differenceInMinutes (parseISO (actual_end_time report))
                               (parseISO (actual_start_time report)))
          (to_number (break_time report)) in
  group ← acc !! userId;
  Some (<[userId := {| userName := userName group;
                       group_reports := group_reports group ++ [report];
                       totalWorkMinutes :=
                         plus (totalWorkMinutes group) workMinutes |}]> acc).

Fixpoint reduce (reports : list ReportJoined) (acc : gmap string Group)
  : option (gmap string Group) :=
  match reports with
  | [] => Some acc
  | report :: rest => acc ← reducer acc report; reduce rest acc
  end.

(** [reports?.reduce(..., {})], then [reportsByUser || {}]. *)
Definition reportsByUser (reports : option (list ReportJoined))
  : option (gmap string Group) :=
  match reports with
  | Some reports => reduce reports ∅
  | None => Some ∅
  end.

(** The minutes shown in a table row. *)
Definition row_workMinutes (report : ReportJoined) : number :=
  minus (differenceInMinutes (parseISO (actual_end_time report))
                             (parseISO (actual_start_time report)))
        (to_number (break_time report)).

(** [Math.floor(m / 60)] hours and [m % 60] minutes, of an integer. *)
Definition hours_minutes (m : JS.num) : option (Z * Z) :=
  m ← m; Some (m / 60, Z.rem m 60).

End Aggregation.

End Reports.

(** ** The specification's notions, and sample data *)

(** In the specification's words: worked minutes are the minutes from the
    actual start to the actual end, less the break. *)
Definition spec_worked_minutes (start_ms end_ms break_minutes : Z) : Z :=
  Z.quot (end_ms - start_ms) 60000 - break_minutes.

(** The safe integers of JavaScript, of absolute value below 2^53: a
    double holds each of them exactly. *)
Definition safe_integer (z : Z) : Prop :=
  - 9007199254740991 <= z <= 9007199254740991.

(** An arithmetic is exact on integers when it computes the sum and the
    difference of two safe integers without error whenever the result is a
    safe integer, as the arithmetic of doubles does. *)
Definition exact_on_integers {N : Numbers} : Prop :=
  forall a b : Z,
    safe_integer a -> safe_integer b ->
    (safe_integer (a + b) -> plus (integer a) (integer b) = integer (a + b)) /\
    (safe_integer (a - b) -> minus (integer a) (integer b) = integer (a - b)).

Section SpecTotals.

Context {N : Numbers}.

Variable parseISO : string -> option Z.

(** The minutes from the actual start to the actual end, less the break,
    as a number. *)
Definition spec_report_minutes (r : ReportJoined) : number :=
  minus
    (match parseISO (actual_start_time r), parseISO (actual_end_time r) with
     | Some s, Some e => integer (Z.quot (e - s) 60000)
     | _, _ => not_a_number
     end)
    (to_number (break_time r)).

(** The property name under which the page groups a report. *)
Definition owner_key (r : ReportJoined) : option string :=
  (fun s : ScheduleJoined => Reports.property_name (user_id s)) <$> joined_schedules r.

Definition reports_of (uid : string) (reports : list ReportJoined)
  : list ReportJoined :=
  filter (fun r => owner_key r = Some uid) reports.

(** The sum of a list of numbers, added from 0 in the order of the list. *)
Definition sum_minutes (l : list number) : number :=
  fold_left plus l (integer 0).

(** A user's total: the sum over the user's reports, for a user who has
    some. *)
Definition spec_user_total (reports : list ReportJoined) (uid : string)
  : option number :=
  match reports_of uid reports with
  | [] => None
  | rs => Some (sum_minutes (spec_report_minutes <$> rs))
  end.

End SpecTotals.

(** A fetched report whose embedded schedule and profile are present and
    whose user id is not a name inherited from Object.prototype. *)
Definition groupable (r : ReportJoined) : Prop :=
  exists (s : ScheduleJoined) (name : string),
    joined_schedules r = Some s /\ joined_profiles s = Some name /\
    Reports.is_inherited (Reports.property_name (user_id s)) = false.

(** The claim that validation only lets through breaks that are a
    non-negative whole number of minutes. *)
Definition nonnegative_integer (s : string) : Prop :=
  exists n : Z, JS.Number s = Some n /\ 0 <= n.

Module Sample.

Definition profile (id name : string) (admin : bool) : Profile :=
  {| profile_id := id; full_name := name; email := name ++ "@example.com";
     is_admin := admin; created_at := "2024-01-10T08:00:00" |}.

Definition schedule (id uid day : string) : Schedule :=
  {| sched_id := id; user_id := Some uid;
     sched_data := {| start_time := day ++ "T09:00"; end_time := day ++ "T17:00";
                      location := "office"; description := "desk work" |} |}.

Definition report (id sid start_ end_ break_ : string) : Report :=
  {| report_id := id; schedule_id := Some sid;
     report_data := {| actual_start_time := start_; actual_end_time := end_;
                       break_time := break_; actual_description := "desk work";
                       reflection := "went well" |} |}.

Definition admin_env : Env :=
  {| auth_user := Some "u1"; store_accepts := true; fresh_id := "n1" |}.

Definition member_env : Env :=
  {| auth_user := Some "u2"; store_accepts := true; fresh_id := "n1" |}.

Definition anonymous_env : Env :=
  {| auth_user := None; store_accepts := true; fresh_id := "n1" |}.

Definition clock : Reports.Clock :=
  {| Reports.getFullYear := 2024; Reports.getMonth := 4 |}.

(** Two members, one of them an administrator; the other has two
    schedules in December 2024 and a report for each. *)
Definition store : Store :=
  {| profiles := [ profile "u1" "alice" true; profile "u2" "bob" false ];
     schedules := [ schedule "s1" "u2" "2024-12-02"; schedule "s2" "u2" "2024-12-03" ];
     reports := [ report "r1" "s1" "2024-12-02T09:00" "2024-12-02T17:00" "60";
                  report "r2" "s2" "2024-12-03T10:00" "2024-12-03T12:30" "0" ] |}.

(** The two reports as the Reports loader would hand them to the page. *)
Definition fetched : list ReportJoined :=
  embed_schedule store <$> reports store.

Definition report_form (sid break_ : string) : FormData :=
  [ ("intent", "report"); ("schedule_id", sid);
    ("actual_start_time", "2024-12-02T09:00");
    ("actual_end_time", "2024-12-02T17:00");
    ("break_time", break_);
    ("actual_description", "desk work"); ("reflection", "went well") ].

Definition is_email (s : string) : bool :=
  existsb (Ascii.eqb "@") (list_ascii_of_string s).

End Sample.

(** The reports that refer to a schedule. *)
Definition reports_linked (sid : option string) (st : Store) : list Report :=
  List.filter (fun r : Report => bool_decide (schedule_id r = sid)) (reports st).

(** The report rows of a read, without their embedded rows. *)
Definition rows_of (fetched : option (list ReportJoined)) : option (list Report) :=
  match fetched with
  | Some l => Some (List.map joined_report l)
  | None => None
  end.

(** The profiles other than the one with the given id. *)
Definition profiles_except (uid : string) (st : Store) : list Profile :=
  List.filter (fun p => negb (String.eqb (profile_id p) uid)) (profiles st).

(** The state of the accumulator after the reports [seen]: a group for
    each user who has a report among them, holding the user's reports in
    order and, as total, the sum of the minutes of their table rows. *)
Definition grouped {N : Numbers} (parseISO : string -> option Z)
    (seen : list ReportJoined) (acc : gmap string Reports.Group) : Prop :=
  forall uid : string,
    match acc !! uid with
    | Some g =>
        Reports.group_reports g = reports_of uid seen /\
        reports_of uid seen <> [] /\
        Reports.totalWorkMinutes g =
          sum_minutes (Reports.row_workMinutes parseISO <$> Reports.group_reports g)
    | None => reports_of uid seen = []
    end.

(** A report whose break is longer than the time between start and end. *)
Definition long_break : ReportJoined :=
  embed_schedule Sample.store
    (Sample.report "r3" "s1" "2024-12-02T09:00" "2024-12-02T10:00" "90").

(** Ascending order of a column, as [.order(column)] leaves the rows. *)
Definition ascending {A : Type} (key : A -> option Z) (a b : A) : Prop :=
  key_le (key a) (key b) = true.

(** What the reducer needs of a fetched report that comes after the
    reports [before]: its embedded schedule, a user id that is not a name
    inherited from Object.prototype and, when it is the first report of its
    user, the embedded profile. *)
Definition presentable (before : list ReportJoined) (r : ReportJoined) : Prop :=
  exists s : ScheduleJoined,
    joined_schedules r = Some s /\
    Reports.is_inherited (Reports.property_name (user_id s)) = false /\
    ((forall r', In r' before ->
                 owner_key r' <> Some (Reports.property_name (user_id s))) ->
     is_Some (joined_profiles s)).

(** The instant at which a fetched report starts. *)
Definition starts_at (r : ReportJoined) : option Z :=
  Time.instant (actual_start_time r).

(** No entry of the accumulator is under an inherited property name. *)
Definition own_keys_free {N : Numbers} (acc : gmap string Reports.Group) : Prop :=
  forall uid g, acc !! uid = Some g -> Reports.is_inherited uid = false.

(** The name of a group is the profile name embedded in the first of the
    reports [seen] of its user. *)
Definition named {N : Numbers} (seen : list ReportJoined)
    (acc : gmap string Reports.Group) : Prop :=
  forall uid g,
    acc !! uid = Some g ->
    exists first rest (s : ScheduleJoined),
      reports_of uid seen = first :: rest /\
      joined_schedules first = Some s /\
      joined_profiles s = Some (Reports.userName g).

(** The first instant of month [m] of year [y]. *)
Definition first_of_month (y m : Z) : Z :=
  Time.days_from_civil y m 1 * 86400000.

(** A store reads plain dates when it takes a text [YYYY-MM-DD] that names
    an existing day as the first instant of that day, as it does for the
    literal of a filter on a timestamp column. *)
Definition reads_plain_dates {reads : Reading} : Prop :=
  forall (s : string) (days : Z),
    Time.read_date s = Some (days, "") ->
    read_instant s = Some (days * 86400000).

(** The sample with one more schedule of the second member and its report,
    in November 2024. *)
Definition november_report : Report :=
  Sample.report "r0" "s0" "2024-11-05T09:00" "2024-11-05T17:00" "60".

Definition store_with_november : Store :=
  {| profiles := profiles Sample.store;
     schedules := Sample.schedule "s0" "u2" "2024-11-05" :: schedules Sample.store;
     reports := november_report :: reports Sample.store |}.

(** * Properties *)

Local Open Scope list_scope.

(** ** Sanity checks of the built-ins *)

Example Number_12 : JS.Number "12" = Some 12.
Proof. reflexivity. Qed.

Example Number_text : JS.Number "abc" = JS.NaN.
Proof. reflexivity. Qed.

Example toString_2024 : JS.toString (Some 2024) = "2024".
Proof. reflexivity. Qed.

Example toString_neg : JS.toString (Some (-30)) = "-30".
Proof. reflexivity. Qed.

Example padStart_3 : JS.padStart 2 "0" "3" = "03".
Proof. reflexivity. Qed.

Example padStart_12 : JS.padStart 2 "0" "12" = "12".
Proof. reflexivity. Qed.

Example instant_epoch : Time.instant "1970-01-01" = Some 0.
Proof. reflexivity. Qed.

Example instant_2024_12_01 : Time.instant "2024-12-01" = Some 1733011200000.
Proof. reflexivity. Qed.

Example instant_minutes :
  Time.instant "2024-12-02T09:30" = Some (1733011200000 + 86400000 + 34200000).
Proof. reflexivity. Qed.

Example instant_no_such_day : Time.instant "2023-02-29" = None.
Proof. reflexivity. Qed.

Example hours_minutes_570 : Reports.hours_minutes (Some 570) = Some (9, 30).
Proof. reflexivity. Qed.

Example hours_minutes_negative :
  Reports.hours_minutes (Some (-30)) = Some (-1, -30).
Proof. reflexivity. Qed.

Example instant_time_only : Time.instant "09:00" = None.
Proof. reflexivity. Qed.

(** ** Validation *)

Lemma scheduleSchema_error_nonempty (s e l d : option string) errs :
  scheduleSchema_safeParse s e l d = ParseError errs -> errs <> [].
Proof.
  unfold scheduleSchema_safeParse, scheduleSchema_issues.
  destruct s, e, l as [[|]|], d as [[|]|]; simpl; intros H; inversion H;
    discriminate.
Qed.

Lemma reportSchema_error_nonempty (s e b d r : option string) errs :
  reportSchema_safeParse s e b d r = ParseError errs -> errs <> [].
Proof.
  unfold reportSchema_safeParse, reportSchema_issues.
  destruct s, e, b, d as [[|]|], r as [[|]|]; simpl; intros H; inversion H;
    discriminate.
Qed.

Lemma flatten_messages issues :
  Forall (fun fi : string * list Message => snd fi <> []) (flatten issues).
Proof.
  unfold flatten. apply List.Forall_forall. intros [f ms] Hin.
  apply List.filter_In in Hin as [_ Hne]. simpl in *.
  destruct ms; [discriminate | discriminate].
Qed.

Lemma scheduleSchema_error_flat (s e l d : option string) errs :
  scheduleSchema_safeParse s e l d = ParseError errs ->
  errs = scheduleSchema_issues s e l d.
Proof.
  unfold scheduleSchema_safeParse.
  destruct (scheduleSchema_issues s e l d) eqn:E; intros H.
  - destruct s, e, l, d; inversion H; reflexivity.
  - inversion H. reflexivity.
Qed.

Lemma reportSchema_error_flat (s e b d r : option string) errs :
  reportSchema_safeParse s e b d r = ParseError errs ->
  errs = reportSchema_issues s e b d r.
Proof.
  unfold reportSchema_safeParse.
  destruct (reportSchema_issues s e b d r) eqn:E; intros H.
  - destruct s, e, b, d, r; inversion H; reflexivity.
  - inversion H. reflexivity.
Qed.

(** ** Handlers *)

Ltac step_handler :=
  unfold run, bind, when, leave, pure, call, read; simpl.

Lemma intent_is_other (intent : option string) (tag : string) :
  intent <> Some tag -> intent_is intent tag = false.
Proof.
  intros Hne. destruct intent as [s|]; simpl; [|reflexivity].
  destruct (String.eqb_spec s tag); [congruence | reflexivity].
Qed.

(** ** Schedule action *)

(** C6: a submission with intent "create" or "report" whose payload fails
    schema validation is answered with field-level error messages (at least
    one field, each with at least one message); no call reaches the store
    and the tables are unchanged. *)
Theorem invalid_payload_inserts_nothing
    (env : Env) (formData : FormData) (st : Store) :
  (formData_get formData "intent" = Some "create" /\
   exists errs, Schedule.create_payload formData = ParseError errs)
  \/ (formData_get formData "intent" = Some "report" /\
      exists errs, Schedule.report_payload formData = ParseError errs) ->
  exists errs,
    run (Schedule.action env formData) st =
      {| calls := []; final := st; answer := Errors errs |} /\
    errs <> [] /\
    Forall (fun fi : string * list Message => snd fi <> []) errs.
Proof.
  intros [[Hintent [errs Hparse]] | [Hintent [errs Hparse]]];
    exists errs; unfold Schedule.action; rewrite Hintent; step_handler;
    rewrite Hparse; simpl.
  - split; [reflexivity | split].
    + eapply scheduleSchema_error_nonempty, Hparse.
    + unfold Schedule.create_payload in Hparse.
      apply scheduleSchema_error_flat in Hparse. subst errs.
      apply flatten_messages.
  - split; [reflexivity | split].
    + eapply reportSchema_error_nonempty, Hparse.
    + unfold Schedule.report_payload in Hparse.
      apply reportSchema_error_flat in Hparse. subst errs.
      apply flatten_messages.
Qed.

Lemma invalid_payload_inserts_nothing_witness :
  exists errs,
    run (Schedule.action Sample.member_env
           [ ("intent", "create"); ("start_time", "2024-12-02T09:00");
             ("end_time", "2024-12-02T17:00"); ("location", "");
             ("description", "desk work") ]) Sample.store =
      {| calls := []; final := Sample.store; answer := Errors errs |} /\
    errs <> [] /\
    Forall (fun fi : string * list Message => snd fi <> []) errs.
Proof.
  apply invalid_payload_inserts_nothing.
  left. split; [reflexivity | eexists; reflexivity].
Defined.

(** C3: a submission with intent "report" whose payload passes validation
    issues the insert of a report linked to the posted schedule_id, whoever
    the current user is and whatever the tables hold: no ownership, end-time
    or existing-report check precedes it.  When the store accepts the insert
    the schedule has one more report than before, also when it had one. *)
Theorem report_insert_is_unchecked
    (env : Env) (formData : FormData) (st : Store) (data : ReportData) :
  formData_get formData "intent" = Some "report" ->
  Schedule.report_payload formData = ParseOk data ->
  let sid := formData_get formData "schedule_id" in
  let insert := InsertReport sid data in
  run (Schedule.action env formData) st =
    (if store_accepts env
     then {| calls := [insert]; final := perform env insert st; answer := Success |}
     else {| calls := [insert]; final := st;
             answer := Error "実績の登録に失敗しました" |})
  /\ reports (perform env insert st) =
       (reports st ++ [{| report_id := fresh_id env; schedule_id := sid;
                          report_data := data |}])%list
  /\ length (reports_linked sid (perform env insert st)) =
       S (length (reports_linked sid st)).
Proof.
  intros Hintent Hparse sid insert. split; [|split].
  - unfold Schedule.action. rewrite Hintent. step_handler.
    rewrite Hparse. simpl. destruct (store_accepts env); reflexivity.
  - reflexivity.
  - unfold reports_linked. simpl. rewrite List.filter_app, length_app. simpl.
    rewrite bool_decide_eq_true_2 by reflexivity. simpl. lia.
Qed.

Lemma report_insert_is_unchecked_witness :
  let insert :=
    InsertReport (Some "s1")
      {| actual_start_time := "2024-12-02T09:00";
         actual_end_time := "2024-12-02T17:00"; break_time := "0";
         actual_description := "desk work"; reflection := "went well" |} in
  length (reports_linked (Some "s1") Sample.store) = 1%nat /\
  run (Schedule.action Sample.admin_env (Sample.report_form "s1" "0")) Sample.store =
    {| calls := [insert]; final := perform Sample.admin_env insert Sample.store;
       answer := Success |} /\
  length (reports_linked (Some "s1")
            (perform Sample.admin_env insert Sample.store)) = 2%nat.
Proof.
  intros insert.
  destruct (report_insert_is_unchecked Sample.admin_env
              (Sample.report_form "s1" "0") Sample.store _
              eq_refl eq_refl) as (Hrun & _ & Hlen).
  split; [reflexivity | split; [exact Hrun | exact Hlen]].
Defined.

(** C10: a submission to the schedule action whose intent is neither
    "create" nor "report", and a submission by an administrator to the
    members action whose intent is neither "invite" nor "delete", issue no
    call, leave the tables unchanged and are answered with success. *)
Theorem unknown_intent_changes_nothing
    (is_email : string -> bool) (env : Env) (formData : FormData) (st : Store) :
  (formData_get formData "intent" <> Some "create" ->
   formData_get formData "intent" <> Some "report" ->
   run (Schedule.action env formData) st =
     {| calls := []; final := st; answer := Success |})
  /\ (admin_flag (profile_of (auth_user env) st) = true ->
      formData_get formData "intent" <> Some "invite" ->
      formData_get formData "intent" <> Some "delete" ->
      run (Members.action is_email env formData) st =
        {| calls := []; final := st; answer := Success |}).
Proof.
  split.
  - intros Hc Hr. unfold Schedule.action.
    rewrite (intent_is_other _ _ Hc), (intent_is_other _ _ Hr). reflexivity.
  - intros Hadmin Hi Hd. unfold Members.action. step_handler.
    rewrite Hadmin. simpl.
    rewrite (intent_is_other _ _ Hi), (intent_is_other _ _ Hd). reflexivity.
Qed.

Lemma unknown_intent_changes_nothing_witness :
  run (Schedule.action Sample.member_env [("intent", "update")]) Sample.store =
    {| calls := []; final := Sample.store; answer := Success |}
  /\ run (Schedule.action Sample.member_env []) Sample.store =
    {| calls := []; final := Sample.store; answer := Success |}
  /\ run (Members.action Sample.is_email Sample.admin_env
            [("intent", "promote"); ("user_id", "u2")]) Sample.store =
    {| calls := []; final := Sample.store; answer := Success |}.
Proof.
  split; [|split].
  - apply (proj1 (unknown_intent_changes_nothing Sample.is_email
                    Sample.member_env [("intent", "update")] Sample.store));
      discriminate.
  - apply (proj1 (unknown_intent_changes_nothing Sample.is_email
                    Sample.member_env [] Sample.store));
      discriminate.
  - apply (proj2 (unknown_intent_changes_nothing Sample.is_email
                    Sample.admin_env [("intent", "promote"); ("user_id", "u2")]
                    Sample.store));
      [reflexivity | discriminate | discriminate].
Defined.

(** ** Rows returned by the window read *)

(** The report rows a window read returns depend on the reports table
    alone; the other tables only fill the embedded rows. *)
Lemma select_reports_rows {reads : Reading} (lower upper : string) (st st' : Store) :
  reports st' = reports st ->
  rows_of (select_reports lower upper st') = rows_of (select_reports lower upper st).
Proof.
  intros Hreports. unfold select_reports. rewrite Hreports.
  destruct (read_instant lower) as [lo|]; [|reflexivity].
  destruct (read_instant upper) as [hi|]; [|reflexivity].
  simpl. f_equal. rewrite !List.map_map. reflexivity.
Qed.

(** ** Report validation *)

(** C4, as stated, fails: a payload whose break_time is the text "-5" (or
    "abc") passes the report schema, which only asks for a string. *)
Lemma negative_break_is_accepted :
  ~ (forall (s e b d r : option string) (data : ReportData),
        reportSchema_safeParse s e b d r = ParseOk data ->
        nonnegative_integer (break_time data)).
Proof.
  intros Hclaim.
  destruct (Hclaim (Some "09:00") (Some "17:00") (Some "-5")
              (Some "desk work") (Some "went well") _ eq_refl)
    as (n & Hn & Hpos).
  vm_compute in Hn. injection Hn as <-. lia.
Qed.

(** C4, amended: the report schema accepts a payload exactly when its five
    fields are strings and actual_description and reflection are not empty;
    the accepted break_time is the posted text as it is, whatever it
    holds. *)
Theorem reportSchema_accepts_any_break_text
    (s e b d r : option string) (data : ReportData) :
  reportSchema_safeParse s e b d r = ParseOk data <->
  s = Some (actual_start_time data) /\ e = Some (actual_end_time data) /\
  b = Some (break_time data) /\
  d = Some (actual_description data) /\ r = Some (reflection data) /\
  actual_description data <> "" /\ reflection data <> "".
Proof.
  unfold reportSchema_safeParse, reportSchema_issues. split.
  - destruct s, e, b, d as [[|]|], r as [[|]|]; simpl; intros H;
      inversion H; subst; simpl; repeat split; discriminate.
  - destruct data as [s' e' b' d' r']. simpl.
    intros (-> & -> & -> & -> & -> & Hd & Hr).
    destruct d'; [congruence|]. destruct r'; [congruence|]. reflexivity.
Qed.

(** ** Members action *)

(** C8, as stated, fails: a delete submitted by a caller who is not an
    administrator removes no profile row. *)
Lemma delete_by_member_removes_nothing :
  let out := run (Members.action Sample.is_email Sample.member_env
                    [("intent", "delete"); ("user_id", "u1")]) Sample.store in
  formData_get [("intent", "delete"); ("user_id", "u1")] "intent" = Some "delete"
  /\ final out = Sample.store
  /\ In (Sample.profile "u1" "alice" true) (profiles (final out))
  /\ profiles (final out) <> profiles_except "u1" Sample.store.
Proof.
  repeat split; [left; reflexivity | discriminate].
Qed.

(** C8, amended: a delete submission naming a user id never touches the
    schedules or the reports.  Submitted by an administrator and accepted
    by the store, it removes the profile rows with that id and no other
    row; submitted by anyone else it is refused before any call, and when
    the store rejects the delete the tables stay as they were. *)
Theorem delete_touches_profiles_only
    (is_email : string -> bool) (env : Env) (formData : FormData) (st : Store)
    (uid : string) :
  formData_get formData "intent" = Some "delete" ->
  formData_get formData "user_id" = Some uid ->
  let out := run (Members.action is_email env formData) st in
  schedules (final out) = schedules st /\
  reports (final out) = reports st /\
  out =
    (if admin_flag (profile_of (auth_user env) st)
     then
       if store_accepts env
       then {| calls := [DeleteProfile (Some uid)];
               final := {| profiles := profiles_except uid st;
                           schedules := schedules st;
                           reports := reports st |};
               answer := Success |}
       else {| calls := [DeleteProfile (Some uid)]; final := st;
               answer := Error "メンバーの削除に失敗しました" |}
     else {| calls := []; final := st;
             answer := Error "管理者以外は実行できません" |}) /\
  (forall p, In p (profiles_except uid st) <->
             In p (profiles st) /\ profile_id p <> uid) /\
  (forall lower upper,
      rows_of (select_reports lower upper (final out)) =
      rows_of (select_reports lower upper st)) /\
  (forall owner, Schedule.loader owner (final out) = Schedule.loader owner st).
Proof.
  intros Hintent Huser out.
  assert (Hout : out =
    (if admin_flag (profile_of (auth_user env) st)
     then
       if store_accepts env
       then {| calls := [DeleteProfile (Some uid)];
               final := {| profiles := profiles_except uid st;
                           schedules := schedules st;
                           reports := reports st |};
               answer := Success |}
       else {| calls := [DeleteProfile (Some uid)]; final := st;
               answer := Error "メンバーの削除に失敗しました" |}
     else {| calls := []; final := st;
             answer := Error "管理者以外は実行できません" |})).
  { subst out. unfold Members.action. step_handler.
    destruct (admin_flag (profile_of (auth_user env) st)); simpl;
      [|reflexivity].
    rewrite Hintent, Huser. simpl.
    destruct (store_accepts env); reflexivity. }
  assert (Hreports : reports (final out) = reports st).
  { rewrite Hout.
    destruct (admin_flag _), (store_accepts env); reflexivity. }
  assert (Hschedules : schedules (final out) = schedules st).
  { rewrite Hout.
    destruct (admin_flag _), (store_accepts env); reflexivity. }
  split; [|split; [|split; [|split; [|split]]]].
  - exact Hschedules.
  - exact Hreports.
  - exact Hout.
  - intros p. unfold profiles_except. rewrite List.filter_In.
    rewrite negb_true_iff, String.eqb_neq. reflexivity.
  - intros lower upper. apply select_reports_rows, Hreports.
  - intros owner. unfold Schedule.loader, Schedule.embed_reports.
    rewrite Hschedules, Hreports. reflexivity.
Qed.

Lemma delete_touches_profiles_only_witness :
  let out := run (Members.action Sample.is_email Sample.admin_env
                    [("intent", "delete"); ("user_id", "u2")]) Sample.store in
  schedules (final out) = schedules Sample.store /\
  reports (final out) = reports Sample.store /\
  out = {| calls := [DeleteProfile (Some "u2")];
           final := {| profiles := [Sample.profile "u1" "alice" true];
                       schedules := schedules Sample.store;
                       reports := reports Sample.store |};
           answer := Success |}.
Proof.
  intros out.
  destruct (delete_touches_profiles_only Sample.is_email Sample.admin_env
              [("intent", "delete"); ("user_id", "u2")] Sample.store "u2"
              eq_refl eq_refl) as (Hs & Hr & Hout & _).
  split; [exact Hs | split; [exact Hr | exact Hout]].
Defined.

(** ** App shell *)

(** C7: without a session the layout loader answers with a redirect to the
    login entry point, for every state of the tables, and never throws;
    with a session it reads the profile of the session's user and returns
    that user together with the profile's admin flag. *)
Theorem layout_loader_redirects_without_session (st : Store) :
  AppLayout.loader None st = Redirect "/login"
  /\ (forall msg, AppLayout.loader None st <> Throw msg)
  /\ (forall session,
        AppLayout.loader (Some session) st =
          Json {| AppLayout.layout_user := AppLayout.session_user session;
                  AppLayout.isAdmin :=
                    is_admin <$>
                      profile_of (Some (AppLayout.session_user session)) st |}).
Proof.
  split; [reflexivity | split]; [discriminate | reflexivity].
Qed.

(** ** Reads *)

Lemma insert_by_perm {A : Type} (key : A -> option Z) (x : A) (l : list A) :
  insert_by key x l ≡ₚ x :: l.
Proof.
  induction l as [|y l IH]; simpl; [reflexivity|].
  destruct (key_le (key x) (key y)); [reflexivity|].
  rewrite IH. apply Permutation_swap.
Qed.

Lemma order_by_perm {A : Type} (key : A -> option Z) (l : list A) :
  order_by key l ≡ₚ l.
Proof.
  induction l as [|x l IH]; simpl; [reflexivity|].
  rewrite insert_by_perm, IH. reflexivity.
Qed.

Lemma key_le_total (a b : option Z) : key_le a b = false -> key_le b a = true.
Proof.
  destruct a, b; simpl; try discriminate; try reflexivity.
  rewrite Z.leb_gt, Z.leb_le. lia.
Qed.

(** [.order(column)] returns the rows in ascending order of the column. *)
Lemma order_by_sorted {A : Type} (key : A -> option Z) (l : list A) :
  Sorted (fun a b => key_le (key a) (key b) = true) (order_by key l).
Proof.
  induction l as [|x l IH]; simpl; [constructor|].
  induction IH as [|y rest Hrest IHrest Hhd]; simpl.
  - repeat constructor.
  - destruct (key_le (key x) (key y)) eqn:Hle.
    + constructor; [constructor; assumption | constructor; exact Hle].
    + constructor; [exact IHrest|].
      destruct rest as [|z rest']; simpl.
      * constructor. apply key_le_total, Hle.
      * destruct (key_le (key x) (key z)); constructor.
        -- apply key_le_total, Hle.
        -- inversion Hhd; assumption.
Qed.

Lemma order_by_ascending {A : Type} (key : A -> option Z) (l : list A) :
  Sorted (ascending key) (order_by key l).
Proof. apply order_by_sorted. Qed.

Lemma key_le_trans (a b c : option Z) :
  key_le a b = true -> key_le b c = true -> key_le a c = true.
Proof.
  destruct a, b, c; simpl; try discriminate; try reflexivity.
  rewrite !Z.leb_le. lia.
Qed.

Lemma ascending_transitive {A : Type} (key : A -> option Z) :
  Transitive (ascending key).
Proof. intros x y z. apply key_le_trans. Qed.

(** After [.order(column)] every row comes before all the rows whose
    instant is later, and the rows without an instant come last. *)
Lemma order_by_strongly_ascending {A : Type} (key : A -> option Z) (l : list A) :
  StronglySorted (ascending key) (order_by key l).
Proof.
  apply (@Sorted_StronglySorted _ _ (ascending_transitive key)).
  apply order_by_ascending.
Qed.

Lemma strongly_sorted_fmap {A B : Type} (f : A -> B) (key : B -> option Z)
    (l : list A) :
  StronglySorted (ascending (fun x => key (f x))) l ->
  StronglySorted (ascending key) (f <$> l).
Proof.
  induction 1 as [|x l Hl IH Hx]; [constructor|].
  rewrite fmap_cons. constructor; [exact IH|].
  apply Forall_fmap. exact Hx.
Qed.

Lemma profile_of_nobody (st : Store) : profile_of None st = None.
Proof.
  unfold profile_of.
  replace (List.filter (fun p => id_matches None (profile_id p)) (profiles st))
    with (@nil Profile); [reflexivity|].
  induction (profiles st) as [|p l IH]; simpl; [reflexivity | exact IH].
Qed.

(** ** The window of a December query *)

Lemma january_before_december (y : Z) :
  Time.days_from_civil y 1 1 <= Time.days_from_civil y 12 1.
Proof.
  unfold Time.days_from_civil. simpl.
  change ((1 + 9) mod 12) with 10. change ((12 + 9) mod 12) with 9.
  change ((153 * 10 + 2) / 5) with 306. change ((153 * 9 + 2) / 5) with 275.
  Z.div_mod_to_equations. lia.
Qed.

(** One step of reading a text whose head is not known yet: split on the
    test the reader is stuck at, or on the shape of the text. *)
Ltac parse_step H :=
  match type of H with
  | context [match JS.digit ?c with _ => _ end] =>
      destruct (JS.digit c) eqn:?; simpl in H
  | context [if Ascii.eqb ?a ?c then _ else _] =>
      destruct (Ascii.eqb a c) eqn:?; simpl in H
  | context [(?y +:+ _)%string] =>
      is_var y; destruct y; simpl in H
  | context [if ?b then _ else _] =>
      destruct b eqn:?; simpl in H
  end.

Ltac parse_all H := repeat (first [discriminate H | parse_step H]).

(** Whatever the year text, when the store can read both bounds of a
    December query the upper one is not after the lower one. *)
Lemma december_bounds (year : string) (lo hi : Z) :
  Time.instant (year ++ "-12-01")%string = Some lo ->
  Time.instant (year ++ "-01-01")%string = Some hi ->
  hi <= lo.
Proof.
  intros Hlo Hhi.
  unfold Time.instant, Time.read_date, Time.read_time, Time.expect in Hlo.
  simpl in Hlo. parse_all Hlo.
  unfold Time.instant, Time.read_date, Time.expect in Hhi. simpl in Hhi.
  repeat match goal with
         | E : JS.digit _ = Some _ |- _ => rewrite E in Hhi; clear E
         end.
  simpl in Hhi. parse_all Hhi.
  injection Hlo as <-. injection Hhi as <-.
  apply Z.mul_le_mono_nonneg_r; [lia | apply january_before_december].
Qed.

Lemma empty_window {reads : Reading} (lo hi : Z) (l : list Report) :
  hi <= lo ->
  List.filter
    (fun r : Report => in_window lo hi (read_instant (actual_start_time r))) l = [].
Proof.
  intros Hle. induction l as [|r l IH]; simpl; [reflexivity|].
  destruct (read_instant (actual_start_time r)) as [t|]; simpl; [|exact IH].
  destruct (lo <=? t) eqn:E1, (t <? hi) eqn:E2; simpl; try exact IH.
  apply Z.leb_le in E1. apply Z.ltb_lt in E2. lia.
Qed.

Lemma december_read_is_empty (year : string) (st : Store) :
  select_reports (Reports.lower_bound year "12") (Reports.upper_bound year "12") st
    = None
  \/ select_reports (Reports.lower_bound year "12") (Reports.upper_bound year "12") st
    = Some [].
Proof.
  change (Reports.lower_bound year "12") with (year ++ "-12-01")%string.
  change (Reports.upper_bound year "12") with (year ++ "-01-01")%string.
  unfold select_reports.
  change (read_instant (year ++ "-12-01")) with (Time.instant (year ++ "-12-01")).
  change (read_instant (year ++ "-01-01")) with (Time.instant (year ++ "-01-01")).
  destruct (Time.instant (year ++ "-12-01")) as [lo|] eqn:Hlo; [|left; reflexivity].
  destruct (Time.instant (year ++ "-01-01")) as [hi|] eqn:Hhi; [|left; reflexivity].
  right. simpl. rewrite empty_window by (eapply december_bounds; eassumption).
  reflexivity.
Qed.

(** ** Loaders of the administrator pages *)

(** C1 (the code departs from it): for month=12 the loader builds the
    upper bound of the window from the year of the query, so it asks for
    the reports from year-12-01 to year-01-01 and, for every year and every
    state of the tables, gets none.  For year=2024 the two December reports
    of the sample are not selected, although they lie in the window from
    2024-12-01 to 2025-01-01 that the specification names. *)
Theorem december_window_keeps_the_year :
  (forall year, Reports.upper_bound year "12" = (year ++ "-01-01")%string)
  /\ (forall year st,
        let fetched :=
          select_reports (Reports.lower_bound year "12")
                         (Reports.upper_bound year "12") st in
        fetched = None \/ fetched = Some [])
  /\ Reports.lower_bound "2024" "12" = "2024-12-01"
  /\ Reports.loader Sample.admin_env Sample.clock
       [("year", "2024"); ("month", "12")] Sample.store =
     Json {| Reports.data_reports := Some [];
             Reports.data_year := "2024"; Reports.data_month := "12" |}
  /\ select_reports "2024-12-01" "2025-01-01" Sample.store = Some Sample.fetched.
Proof.
  split; [intros year; reflexivity|].
  split; [intros year st; apply december_read_is_empty|].
  split; [reflexivity|]. split; vm_compute; reflexivity.
Qed.

(** C5 (the code departs from it for December): a caller whose profile
    does not carry the admin flag, an unauthenticated caller included, gets
    the access-denied error and no data from both loaders; an administrator
    gets every profile from the Members loader and a list of reports from
    the Reports loader.  Asked for November 2024, that list is the November
    report of the table, without the December ones.  Asked for December
    2024 it is empty, although the table holds the two reports of that
    month: the upper bound of the window is the one of C1. *)
Theorem loaders_admit_administrators_only :
  (forall (env : Env) (now : Reports.Clock) (params : Reports.URLSearchParams)
          (st : Store),
      let admin := admin_flag (profile_of (auth_user env) st) in
      (auth_user env = None -> admin = false)
      /\ (admin = false ->
          Reports.loader env now params st = Throw "管理者以外はアクセスできません" /\
          Members.loader env st = Throw "管理者以外はアクセスできません")
      /\ (admin = true ->
          (exists members,
              Members.loader env st = Json members /\ members ≡ₚ profiles st)
          /\ exists data, Reports.loader env now params st = Json data))
  /\ Reports.loader Sample.admin_env Sample.clock
       [("year", "2024"); ("month", "11")] store_with_november =
     Json {| Reports.data_reports :=
               Some [embed_schedule store_with_november november_report];
             Reports.data_year := "2024"; Reports.data_month := "11" |}
  /\ select_reports "2024-12-01" "2025-01-01" store_with_november =
     Some (embed_schedule store_with_november <$> reports Sample.store)
  /\ Reports.loader Sample.admin_env Sample.clock
       [("year", "2024"); ("month", "12")] store_with_november =
     Json {| Reports.data_reports := Some [];
             Reports.data_year := "2024"; Reports.data_month := "12" |}.
Proof.
  split; [|split; [|split]].
  - intros env now params st admin. split; [|split].
    + intros Hnone. subst admin. rewrite Hnone, profile_of_nobody. reflexivity.
    + intros Hadmin. subst admin.
      unfold Reports.loader, Members.loader. rewrite Hadmin. split; reflexivity.
    + intros Hadmin. subst admin. split.
      * eexists. unfold Members.loader. rewrite Hadmin. simpl.
        split; [reflexivity | apply order_by_perm].
      * eexists. unfold Reports.loader. rewrite Hadmin. reflexivity.
  - vm_compute. reflexivity.
  - vm_compute. reflexivity.
  - vm_compute. reflexivity.
Qed.

Lemma loaders_admit_administrators_only_witness :
  (Reports.loader Sample.anonymous_env Sample.clock [] Sample.store =
     Throw "管理者以外はアクセスできません" /\
   Members.loader Sample.anonymous_env Sample.store =
     Throw "管理者以外はアクセスできません")
  /\ (Reports.loader Sample.member_env Sample.clock [] Sample.store =
        Throw "管理者以外はアクセスできません" /\
      Members.loader Sample.member_env Sample.store =
        Throw "管理者以外はアクセスできません")
  /\ (exists members,
        Members.loader Sample.admin_env Sample.store = Json members /\
        members ≡ₚ profiles Sample.store).
Proof.
  destruct loaders_admit_administrators_only as (Hgate & _).
  split; [|split].
  - destruct (Hgate Sample.anonymous_env Sample.clock [] Sample.store)
      as (Hanon & Hdeny & _).
    apply Hdeny, Hanon. reflexivity.
  - destruct (Hgate Sample.member_env Sample.clock [] Sample.store)
      as (_ & Hdeny & _).
    apply Hdeny. reflexivity.
  - destruct (Hgate Sample.admin_env Sample.clock [] Sample.store)
      as (_ & _ & Hadmin).
    destruct (Hadmin eq_refl) as (Hmembers & _). exact Hmembers.
Defined.

(** ** Grouping and worked minutes on the Reports page *)

Lemma reports_of_snoc (uid : string) (seen : list ReportJoined) (r : ReportJoined) :
  reports_of uid (seen ++ [r]) =
  reports_of uid seen ++ (if decide (owner_key r = Some uid) then [r] else []).
Proof.
  unfold reports_of. rewrite filter_app. reflexivity.
Qed.

Lemma reports_of_nil_iff (uid : string) (seen : list ReportJoined) :
  reports_of uid seen = [] <->
  forall r', In r' seen -> owner_key r' <> Some uid.
Proof.
  unfold reports_of. split.
  - intros Hnil r' Hin Hown.
    apply (filter_nil_not_elem_of _ _ r' Hnil Hown).
    apply list_elem_of_In. exact Hin.
  - intros Hnone.
    destruct (filter (fun r => owner_key r = Some uid) seen) as [|x l] eqn:E;
      [reflexivity|].
    assert (Hx : x ∈ filter (fun r => owner_key r = Some uid) seen)
      by (rewrite E; left).
    apply list_elem_of_filter in Hx as [Hown Hin].
    apply list_elem_of_In in Hin. destruct (Hnone x Hin Hown).
Qed.

Section Grouping.

Context {N : Numbers}.

Variable parseISO : string -> option Z.

(** Adding one more number at the end of a sum. *)
Lemma sum_minutes_snoc (l : list number) (w : number) :
  sum_minutes (l ++ [w]) = plus (sum_minutes l) w.
Proof. unfold sum_minutes. rewrite fold_left_app. reflexivity. Qed.

Lemma row_is_spec (r : ReportJoined) :
  Reports.row_workMinutes parseISO r = spec_report_minutes parseISO r.
Proof.
  unfold Reports.row_workMinutes, spec_report_minutes,
    Reports.differenceInMinutes.
  destruct (parseISO (actual_start_time r)), (parseISO (actual_end_time r));
    reflexivity.
Qed.

(** One call of the reducer adds the row's minutes to the total of the
    report's user, starting from 0 for a user met for the first time. *)
Lemma reducer_adds_row (acc acc' : gmap string Reports.Group) (r : ReportJoined) :
  Reports.reducer parseISO acc r = Some acc' ->
  exists uid g',
    owner_key r = Some uid /\ acc' !! uid = Some g' /\
    Reports.totalWorkMinutes g' =
      plus (from_option Reports.totalWorkMinutes (integer 0) (acc !! uid))
           (Reports.row_workMinutes parseISO r) /\
    Reports.group_reports g' =
      from_option Reports.group_reports [] (acc !! uid) ++ [r] /\
    forall other, other <> uid -> acc' !! other = acc !! other.
Proof.
  unfold Reports.reducer, owner_key.
  destruct (joined_schedules r) as [s|]; simpl; [|discriminate].
  set (uid := Reports.property_name (user_id s)).
  intros H. exists uid.
  destruct (acc !! uid) as [g|] eqn:Hacc; simpl in H.
  - rewrite Hacc in H. simpl in H. injection H as <-.
    eexists. split; [reflexivity|]. rewrite lookup_insert_eq.
    split; [reflexivity|]. simpl. repeat split.
    intros other Hne. apply lookup_insert_ne. congruence.
  - destruct (Reports.is_inherited uid).
    + simpl in H. rewrite Hacc in H. discriminate.
    + destruct (joined_profiles s) as [name|]; simpl in H; [|discriminate].
      rewrite lookup_insert_eq in H. simpl in H. injection H as <-.
      eexists. split; [reflexivity|]. rewrite lookup_insert_eq.
      split; [reflexivity|]. simpl. repeat split.
      intros other Hne. rewrite !lookup_insert_ne by congruence. reflexivity.
Qed.

Lemma reducer_grouped (seen : list ReportJoined)
    (acc acc' : gmap string Reports.Group) (r : ReportJoined) :
  Reports.reducer parseISO acc r = Some acc' ->
  grouped parseISO seen acc -> grouped parseISO (seen ++ [r]) acc'.
Proof.
  intros Hstep Hinv.
  destruct (reducer_adds_row _ _ _ Hstep)
    as (uid & g' & Hown & Hg' & Htotal & Hrows & Hother).
  intros k. rewrite reports_of_snoc.
  destruct (decide (k = uid)) as [->|Hne].
  - rewrite Hg'. rewrite decide_True by exact Hown.
    specialize (Hinv uid). destruct (acc !! uid) as [g|]; simpl in *.
    + destruct Hinv as (Hg & _ & Hsum).
      rewrite Hrows, Htotal, Hg. split; [reflexivity|].
      split; [intros E; apply app_eq_nil in E as [_ E]; discriminate|].
      rewrite fmap_app.
      change (Reports.row_workMinutes parseISO <$> [r])
        with [Reports.row_workMinutes parseISO r].
      rewrite sum_minutes_snoc, Hsum, Hg. reflexivity.
    + rewrite Hrows, Htotal, Hinv. simpl. split; [reflexivity|].
      split; [discriminate | reflexivity].
  - rewrite (Hother k Hne). rewrite decide_False by congruence.
    rewrite app_nil_r. apply Hinv.
Qed.

Lemma reduce_grouped (rest seen : list ReportJoined)
    (acc acc' : gmap string Reports.Group) :
  Reports.reduce parseISO rest acc = Some acc' ->
  grouped parseISO seen acc -> grouped parseISO (seen ++ rest) acc'.
Proof.
  revert seen acc. induction rest as [|r rest IH]; intros seen acc H Hinv.
  - simpl in H. injection H as <-. rewrite app_nil_r. exact Hinv.
  - simpl in H.
    destruct (Reports.reducer parseISO acc r) as [acc1|] eqn:Hstep;
      simpl in H; [|discriminate].
    replace (seen ++ r :: rest) with ((seen ++ [r]) ++ rest)
      by (rewrite <- app_assoc; reflexivity).
    eapply IH; [exact H|]. eapply reducer_grouped; eassumption.
Qed.

Lemma grouped_start : grouped parseISO [] ∅.
Proof. intros uid. rewrite lookup_empty. reflexivity. Qed.

Lemma reportsByUser_grouped (reports : list ReportJoined)
    (groups : gmap string Reports.Group) :
  Reports.reportsByUser parseISO (Some reports) = Some groups ->
  grouped parseISO reports groups.
Proof.
  simpl. intros H. apply (reduce_grouped _ [] _ _ H grouped_start).
Qed.

(** The total of every group is the sum, in the order of the fetch, of the
    minutes of the user's reports. *)
Lemma reportsByUser_totals (reports : list ReportJoined)
    (groups : gmap string Reports.Group) :
  Reports.reportsByUser parseISO (Some reports) = Some groups ->
  forall uid,
    Reports.totalWorkMinutes <$> groups !! uid =
    spec_user_total parseISO reports uid.
Proof.
  intros Hgroups uid.
  pose proof (reportsByUser_grouped _ _ Hgroups uid) as Hinv.
  unfold spec_user_total.
  destruct (groups !! uid) as [g|]; simpl.
  - destruct Hinv as (Hg & Hne & Hsum). rewrite Hsum, Hg.
    replace (Reports.row_workMinutes parseISO <$> reports_of uid reports)
      with (spec_report_minutes parseISO <$> reports_of uid reports)
      by (apply list_fmap_ext; intros; symmetry; apply row_is_spec).
    destruct (reports_of uid reports); [congruence | reflexivity].
  - rewrite Hinv. reflexivity.
Qed.

Lemma reducer_total (acc : gmap string Reports.Group) (r : ReportJoined) :
  groupable r -> is_Some (Reports.reducer parseISO acc r).
Proof.
  intros (s & name & Hs & Hname & Hfree). unfold Reports.reducer.
  rewrite Hs. simpl. rewrite Hfree, Hname.
  destruct (acc !! Reports.property_name (user_id s)) as [g|] eqn:Hacc; simpl.
  - rewrite Hacc. simpl. eauto.
  - rewrite lookup_insert_eq. simpl. eauto.
Qed.

Lemma reduce_total (reports : list ReportJoined) (acc : gmap string Reports.Group) :
  Forall groupable reports -> is_Some (Reports.reduce parseISO reports acc).
Proof.
  intros Hall. revert acc. induction Hall as [|r rest Hr _ IH]; intros acc.
  - simpl. eauto.
  - simpl. destruct (reducer_total acc r Hr) as [acc1 ->]. simpl. apply IH.
Qed.

(** In an arithmetic that is exact on integers, the minutes of a report
    whose break is an integer are the integer the specification names. *)
Lemma minutes_of_integers (r : ReportJoined) (s e b : Z) :
  exact_on_integers ->
  parseISO (actual_start_time r) = Some s ->
  parseISO (actual_end_time r) = Some e ->
  to_number (break_time r) = integer b ->
  safe_integer (Z.quot (e - s) 60000) -> safe_integer b ->
  safe_integer (spec_worked_minutes s e b) ->
  spec_report_minutes parseISO r = integer (spec_worked_minutes s e b).
Proof.
  intros Hexact Hs He Hb Hdiff Hbreak Hresult.
  unfold spec_report_minutes. rewrite Hs, He, Hb.
  apply (Hexact _ _ Hdiff Hbreak). exact Hresult.
Qed.

Lemma reducer_succeeds_iff (seen : list ReportJoined)
    (acc : gmap string Reports.Group) (r : ReportJoined) :
  grouped parseISO seen acc -> own_keys_free acc ->
  is_Some (Reports.reducer parseISO acc r) <-> presentable seen r.
Proof.
  intros Hinv Hfree. unfold Reports.reducer, presentable.
  destruct (joined_schedules r) as [s|]; simpl.
  2: { split; [intros [x Hx]; discriminate | intros (s & Hs & _); discriminate]. }
  set (uid := Reports.property_name (user_id s)).
  specialize (Hinv uid).
  destruct (acc !! uid) as [g|] eqn:Hacc; simpl.
  - rewrite Hacc. simpl. split; [intros _ | intros _; eauto].
    exists s. split; [reflexivity|]. split; [exact (Hfree uid g Hacc)|].
    intros Hnone. destruct Hinv as (_ & Hne & _).
    destruct (Hne (proj2 (reports_of_nil_iff uid seen) Hnone)).
  - pose proof (proj1 (reports_of_nil_iff uid seen) Hinv) as Hnone.
    destruct (Reports.is_inherited uid) eqn:Hinh; simpl.
    + rewrite Hacc. simpl.
      split; [intros [x Hx]; discriminate|].
      intros (s' & Hs' & Hfalse & _). injection Hs' as <-.
      fold uid in Hfalse. congruence.
    + destruct (joined_profiles s) as [name|] eqn:Hname; simpl.
      * rewrite lookup_insert_eq. simpl. split; [intros _ | intros _; eauto].
        exists s. split; [reflexivity|].
        split; [exact Hinh | intros _; rewrite Hname; eauto].
      * split; [intros [x Hx]; discriminate|].
        intros (s' & Hs' & _ & Hprofile). injection Hs' as <-.
        destruct (Hprofile Hnone) as [x Hx]. rewrite Hname in Hx. discriminate.
Qed.

Lemma reducer_keeps_keys_free (acc acc' : gmap string Reports.Group)
    (r : ReportJoined) :
  Reports.reducer parseISO acc r = Some acc' ->
  own_keys_free acc -> own_keys_free acc'.
Proof.
  unfold Reports.reducer.
  destruct (joined_schedules r) as [s|]; simpl; [|discriminate].
  set (uid := Reports.property_name (user_id s)).
  intros H Hfree k g Hk.
  destruct (decide (k = uid)) as [->|Hne].
  - destruct (acc !! uid) as [g0|] eqn:Hacc; simpl in H;
      [exact (Hfree uid g0 Hacc)|].
    destruct (Reports.is_inherited uid); [|reflexivity].
    simpl in H. rewrite Hacc in H. discriminate.
  - destruct (acc !! uid) as [g0|] eqn:Hacc; simpl in H.
    + rewrite Hacc in H. simpl in H. injection H as <-.
      rewrite lookup_insert_ne in Hk by congruence. exact (Hfree k g Hk).
    + destruct (Reports.is_inherited uid); simpl in H;
        [rewrite Hacc in H; discriminate|].
      destruct (joined_profiles s); simpl in H; [|discriminate].
      rewrite lookup_insert_eq in H. simpl in H. injection H as <-.
      rewrite !lookup_insert_ne in Hk by congruence. exact (Hfree k g Hk).
Qed.

Lemma reduce_succeeds_iff (rest seen : list ReportJoined)
    (acc : gmap string Reports.Group) :
  grouped parseISO seen acc -> own_keys_free acc ->
  is_Some (Reports.reduce parseISO rest acc) <->
  forall before r after,
    rest = before ++ r :: after -> presentable (seen ++ before) r.
Proof.
  revert seen acc. induction rest as [|r0 rest IH]; intros seen acc Hinv Hfree.
  - simpl. split; [|eauto].
    intros _ before r after E. destruct before; discriminate.
  - simpl. split.
    + intros Hsome.
      destruct (Reports.reducer parseISO acc r0) as [acc1|] eqn:Hstep;
        simpl in Hsome; [|destruct Hsome; discriminate].
      intros before r after E. destruct before as [|b before].
      * simpl in E. injection E as -> ->. rewrite app_nil_r.
        apply (reducer_succeeds_iff seen acc r Hinv Hfree). rewrite Hstep. eauto.
      * simpl in E. injection E as <- ->.
        replace (seen ++ r0 :: before) with ((seen ++ [r0]) ++ before)
          by (rewrite <- app_assoc; reflexivity).
        eapply (IH (seen ++ [r0]) acc1); [| | exact Hsome | reflexivity].
        -- eapply reducer_grouped; eassumption.
        -- eapply reducer_keeps_keys_free; eassumption.
    + intros Hall.
      assert (Hfirst : presentable seen r0).
      { rewrite <- (app_nil_r seen). apply (Hall [] r0 rest). reflexivity. }
      apply (reducer_succeeds_iff seen acc r0 Hinv Hfree) in Hfirst.
      destruct Hfirst as [acc1 Hstep]. rewrite Hstep. simpl.
      apply (IH (seen ++ [r0]) acc1).
      * eapply reducer_grouped; eassumption.
      * eapply reducer_keeps_keys_free; eassumption.
      * intros before r after E.
        rewrite <- app_assoc. simpl. apply (Hall (r0 :: before) r after).
        rewrite E. reflexivity.
Qed.

Lemma reportsByUser_succeeds_iff (reports : list ReportJoined) :
  is_Some (Reports.reportsByUser parseISO (Some reports)) <->
  forall before r after,
    reports = before ++ r :: after -> presentable before r.
Proof.
  simpl. apply (reduce_succeeds_iff reports [] ∅).
  - apply grouped_start.
  - intros uid g Hg. rewrite lookup_empty in Hg. discriminate.
Qed.

Lemma reducer_named (seen : list ReportJoined)
    (acc acc' : gmap string Reports.Group) (r : ReportJoined) :
  Reports.reducer parseISO acc r = Some acc' ->
  grouped parseISO seen acc -> named seen acc -> named (seen ++ [r]) acc'.
Proof.
  unfold Reports.reducer.
  destruct (joined_schedules r) as [s|] eqn:Hs; simpl; [|discriminate].
  set (uid := Reports.property_name (user_id s)).
  assert (Hown : owner_key r = Some uid) by (unfold owner_key; rewrite Hs; reflexivity).
  intros H Hinv Hnamed k g Hk. rewrite reports_of_snoc.
  destruct (decide (k = uid)) as [->|Hne].
  - rewrite decide_True by exact Hown.
    destruct (acc !! uid) as [g0|] eqn:Hacc; simpl in H.
    + rewrite Hacc in H. simpl in H. injection H as <-.
      rewrite lookup_insert_eq in Hk. injection Hk as <-. simpl.
      destruct (Hnamed uid g0 Hacc) as (first & rest & s0 & Hfirst & Hs0 & Hname).
      rewrite Hfirst. exists first, (rest ++ [r]), s0. auto.
    + destruct (Reports.is_inherited uid); simpl in H;
        [rewrite Hacc in H; discriminate|].
      destruct (joined_profiles s) as [name|] eqn:Hname; simpl in H; [|discriminate].
      rewrite lookup_insert_eq in H. simpl in H. injection H as <-.
      rewrite lookup_insert_eq in Hk. injection Hk as <-. simpl.
      specialize (Hinv uid). rewrite Hacc in Hinv. rewrite Hinv.
      exists r, [], s. auto.
  - rewrite decide_False by congruence. rewrite app_nil_r.
    apply Hnamed.
    destruct (acc !! uid) as [g0|] eqn:Hacc; simpl in H.
    + rewrite Hacc in H. simpl in H. injection H as <-.
      rewrite lookup_insert_ne in Hk by congruence. exact Hk.
    + destruct (Reports.is_inherited uid); simpl in H;
        [rewrite Hacc in H; discriminate|].
      destruct (joined_profiles s); simpl in H; [|discriminate].
      rewrite lookup_insert_eq in H. simpl in H. injection H as <-.
      rewrite !lookup_insert_ne in Hk by congruence. exact Hk.
Qed.

Lemma reduce_named (rest seen : list ReportJoined)
    (acc acc' : gmap string Reports.Group) :
  Reports.reduce parseISO rest acc = Some acc' ->
  grouped parseISO seen acc -> named seen acc -> named (seen ++ rest) acc'.
Proof.
  revert seen acc. induction rest as [|r rest IH]; intros seen acc H Hinv Hnamed.
  - simpl in H. injection H as <-. rewrite app_nil_r. exact Hnamed.
  - simpl in H.
    destruct (Reports.reducer parseISO acc r) as [acc1|] eqn:Hstep;
      simpl in H; [|discriminate].
    replace (seen ++ r :: rest) with ((seen ++ [r]) ++ rest)
      by (rewrite <- app_assoc; reflexivity).
    eapply IH; [exact H | |].
    + eapply reducer_grouped; eassumption.
    + eapply reducer_named; eassumption.
Qed.

Lemma grouped_reports_have_owner (reports : list ReportJoined)
    (groups : gmap string Reports.Group) (r : ReportJoined) :
  Reports.reportsByUser parseISO (Some reports) = Some groups ->
  In r reports ->
  exists uid g,
    owner_key r = Some uid /\ groups !! uid = Some g /\
    In r (Reports.group_reports g).
Proof.
  intros Hgroups Hin.
  assert (Hsome : is_Some (Reports.reportsByUser parseISO (Some reports)))
    by (rewrite Hgroups; eauto).
  destruct (in_split _ _ Hin) as (before & after & E).
  destruct (proj1 (reportsByUser_succeeds_iff reports) Hsome
              before r after E) as (s & Hs & _).
  set (uid := Reports.property_name (user_id s)).
  assert (Hown : owner_key r = Some uid) by (unfold owner_key; rewrite Hs; reflexivity).
  assert (Hr : r ∈ reports_of uid reports).
  { apply list_elem_of_filter. split; [exact Hown | apply list_elem_of_In, Hin]. }
  pose proof (reportsByUser_grouped _ _ Hgroups uid) as Hinv.
  destruct (groups !! uid) as [g|] eqn:Hlookup.
  - destruct Hinv as (Hg & _). exists uid, g.
    split; [exact Hown | split; [exact Hlookup|]].
    rewrite Hg. apply list_elem_of_In, Hr.
  - rewrite Hinv in Hr. inversion Hr.
Qed.

End Grouping.

Lemma sample_is_groupable : Forall groupable Sample.fetched.
Proof.
  repeat constructor; eexists _, _; repeat split; reflexivity.
Qed.

Lemma sample_is_one_users : reports_of "u2" Sample.fetched = Sample.fetched.
Proof. reflexivity. Qed.

Ltac safe_by_computation :=
  unfold safe_integer; split; apply Z.leb_le; vm_compute; reflexivity.

(** The minutes of the two sample reports and of the report with the long
    break, in every arithmetic that is exact on integers and reads the
    three break texts as JavaScript does. *)
Lemma sample_minutes {N : Numbers} :
  exact_on_integers ->
  to_number "60" = integer 60 -> to_number "0" = integer 0 ->
  to_number "90" = integer 90 ->
  spec_report_minutes Time.instant <$> Sample.fetched = [integer 420; integer 150]
  /\ spec_report_minutes Time.instant long_break = integer (-30).
Proof.
  intros Hexact H60 H0 H90. split.
  - change Sample.fetched
      with [embed_schedule Sample.store
              (Sample.report "r1" "s1" "2024-12-02T09:00" "2024-12-02T17:00" "60");
            embed_schedule Sample.store
              (Sample.report "r2" "s2" "2024-12-03T10:00" "2024-12-03T12:30" "0")].
    cbn [fmap list_fmap]. f_equal; [|f_equal].
    + apply (minutes_of_integers Time.instant _
               (1733011200000 + 86400000 + 32400000)
               (1733011200000 + 86400000 + 61200000) 60 Hexact);
        first [reflexivity | exact H60 | safe_by_computation].
    + apply (minutes_of_integers Time.instant _
               (1733011200000 + 2 * 86400000 + 36000000)
               (1733011200000 + 2 * 86400000 + 45000000) 0 Hexact);
        first [reflexivity | exact H0 | safe_by_computation].
  - apply (minutes_of_integers Time.instant _
             (1733011200000 + 86400000 + 32400000)
             (1733011200000 + 86400000 + 36000000) 90 Hexact);
      first [reflexivity | exact H90 | safe_by_computation].
Qed.

(** C2: the minutes the aggregation computes for a report are the minutes
    from actual_start_time to actual_end_time less break_time, negative
    when the break is the longer (no clamping), and a user's total is the
    sum of these values over the user's reports, added in the order of the
    fetch; this in every arithmetic.  For the two reports 09:00-17:00 with
    a break of 60 and 10:00-12:30 with a break of 0 of one user the values
    are 420 and 150 and the total is 570, in every arithmetic that is exact
    on integers, as doubles are. *)
Theorem worked_minutes_and_user_totals
    {N : Numbers} (parseISO : string -> option Z) :
  (forall (reports : list ReportJoined) (groups : gmap string Reports.Group),
      Reports.reportsByUser parseISO (Some reports) = Some groups ->
      forall uid,
        Reports.totalWorkMinutes <$> groups !! uid =
        spec_user_total parseISO reports uid)
  /\ (forall reports : list ReportJoined,
        Forall groupable reports ->
        is_Some (Reports.reportsByUser parseISO (Some reports)))
  /\ (forall acc r acc',
        Reports.reducer parseISO acc r = Some acc' ->
        exists uid g',
          owner_key r = Some uid /\ acc' !! uid = Some g' /\
          Reports.totalWorkMinutes g' =
            plus (from_option Reports.totalWorkMinutes (integer 0) (acc !! uid))
                 (spec_report_minutes parseISO r))
  /\ (exact_on_integers ->
      forall (r : ReportJoined) (s e b : Z),
        parseISO (actual_start_time r) = Some s ->
        parseISO (actual_end_time r) = Some e ->
        to_number (break_time r) = integer b ->
        safe_integer (Z.quot (e - s) 60000) -> safe_integer b ->
        safe_integer (spec_worked_minutes s e b) ->
        spec_report_minutes parseISO r = integer (spec_worked_minutes s e b))
  /\ (exact_on_integers ->
      to_number "60" = integer 60 -> to_number "0" = integer 0 ->
      to_number "90" = integer 90 ->
      spec_report_minutes Time.instant <$> Sample.fetched
        = [integer 420; integer 150]
      /\ (Reports.reportsByUser Time.instant (Some Sample.fetched) ≫=
            fun groups => Reports.totalWorkMinutes <$> groups !! "u2") =
         Some (integer 570)
      /\ (Reports.reportsByUser Time.instant (Some [long_break]) ≫=
            fun groups => Reports.totalWorkMinutes <$> groups !! "u2") =
         Some (integer (-30))).
Proof.
  split; [|split; [|split; [|split]]].
  - intros reports groups Hgroups uid.
    apply reportsByUser_totals, Hgroups.
  - intros reports Hall. apply reduce_total, Hall.
  - intros acc r acc' Hstep.
    destruct (reducer_adds_row parseISO _ _ _ Hstep)
      as (uid & g' & Hown & Hg' & Htotal & _).
    exists uid, g'. rewrite <- row_is_spec. auto.
  - intros Hexact r s e b. apply minutes_of_integers, Hexact.
  - intros Hexact H60 H0 H90.
    destruct (sample_minutes Hexact H60 H0 H90) as [Hrows Hlong].
    assert (Hzero : forall z, safe_integer z -> plus (integer 0) (integer z) = integer z).
    { intros z Hz. apply (Hexact 0 z); [safe_by_computation | exact Hz | exact Hz]. }
    split; [exact Hrows | split].
    + destruct (reduce_total Time.instant Sample.fetched ∅ sample_is_groupable)
        as [groups Hgroups].
      change (Reports.reportsByUser Time.instant (Some Sample.fetched) = Some groups)
        in Hgroups.
      rewrite Hgroups. cbn [mbind option_bind].
      rewrite (reportsByUser_totals Time.instant _ _ Hgroups "u2").
      unfold spec_user_total. rewrite sample_is_one_users.
      change (Some (sum_minutes (spec_report_minutes Time.instant <$> Sample.fetched))
              = Some (integer 570)).
      rewrite Hrows. unfold sum_minutes. cbn [fold_left].
      rewrite Hzero by safe_by_computation.
      f_equal. apply (Hexact 420 150); safe_by_computation.
    + assert (Hone : Forall groupable [long_break])
        by (repeat constructor; eexists _, _; repeat split; reflexivity).
      destruct (reduce_total Time.instant [long_break] ∅ Hone) as [groups Hgroups].
      change (Reports.reportsByUser Time.instant (Some [long_break]) = Some groups)
        in Hgroups.
      rewrite Hgroups. cbn [mbind option_bind].
      rewrite (reportsByUser_totals Time.instant _ _ Hgroups "u2").
      unfold spec_user_total.
      change (Some (sum_minutes [spec_report_minutes Time.instant long_break])
              = Some (integer (-30))).
      unfold sum_minutes. cbn [fold_left].
      rewrite Hlong. f_equal. apply Hzero. safe_by_computation.
Qed.

Lemma integers_are_exact : @exact_on_integers integers.
Proof. intros a b _ _. split; intros _; reflexivity. Qed.

Lemma worked_minutes_and_user_totals_witness :
  spec_report_minutes (N := integers) Time.instant <$> Sample.fetched
    = [Some 420; Some 150]
  /\ (Reports.reportsByUser (N := integers) Time.instant (Some Sample.fetched) ≫=
        fun groups => Reports.totalWorkMinutes <$> groups !! "u2") =
     Some (Some 570)
  /\ (Reports.reportsByUser (N := integers) Time.instant (Some [long_break]) ≫=
        fun groups => Reports.totalWorkMinutes <$> groups !! "u2") =
     Some (Some (-30)).
Proof.
  destruct (@worked_minutes_and_user_totals integers Time.instant)
    as (_ & _ & _ & _ & Hsample).
  apply Hsample; [exact integers_are_exact | reflexivity | reflexivity | reflexivity].
Defined.

(** C9: for every list of fetched reports the page groups, every fetched
    report is a row of the table of its user, the rows of a table are that
    user's fetched reports, and the total shown over the table is the sum,
    from 0 and in the order of the rows, of the minutes shown in them: each
    call of the reducer adds to the user's total the very value the row of
    that report shows.  This holds in every arithmetic.  The grouping
    completes whenever every fetched report carries its embedded schedule
    and profile. *)
Theorem shown_total_is_sum_of_shown_rows
    {N : Numbers} (parseISO : string -> option Z)
    (reports : option (list ReportJoined)) (groups : gmap string Reports.Group) :
  Reports.reportsByUser parseISO reports = Some groups ->
  let fetched := default [] reports in
  (forall r, In r fetched ->
     exists uid g,
       owner_key r = Some uid /\ groups !! uid = Some g /\
       In r (Reports.group_reports g))
  /\ (forall uid g,
        groups !! uid = Some g ->
        Reports.group_reports g = reports_of uid fetched /\
        Reports.totalWorkMinutes g =
          sum_minutes (Reports.row_workMinutes parseISO <$> Reports.group_reports g))
  /\ (forall acc r acc',
        Reports.reducer parseISO acc r = Some acc' ->
        exists uid g',
          owner_key r = Some uid /\ acc' !! uid = Some g' /\
          Reports.totalWorkMinutes g' =
            plus (from_option Reports.totalWorkMinutes (integer 0) (acc !! uid))
                 (Reports.row_workMinutes parseISO r))
  /\ (forall fetched' : list ReportJoined,
        Forall groupable fetched' ->
        is_Some (Reports.reportsByUser parseISO (Some fetched'))).
Proof.
  intros Hgroups fetched.
  assert (Hfetched : Reports.reportsByUser parseISO (Some fetched) = Some groups)
    by (destruct reports; exact Hgroups).
  split; [|split; [|split]].
  - intros r Hin. eapply grouped_reports_have_owner; eassumption.
  - intros uid g Hg.
    pose proof (reportsByUser_grouped parseISO _ _ Hfetched uid) as Hinv.
    rewrite Hg in Hinv. destruct Hinv as (Hrows & _ & Htotal).
    split; [exact Hrows | exact Htotal].
  - intros acc r acc' Hstep.
    destruct (reducer_adds_row parseISO _ _ _ Hstep)
      as (uid & g' & Hown & Hg' & Htotal & _).
    exists uid, g'. auto.
  - intros fetched' Hall. apply reduce_total, Hall.
Qed.

Lemma shown_total_is_sum_of_shown_rows_witness :
  exists groups g,
    Reports.reportsByUser (N := integers) Time.instant (Some Sample.fetched)
      = Some groups /\
    groups !! "u2" = Some g /\
    Reports.group_reports g = Sample.fetched /\
    Reports.totalWorkMinutes g =
      sum_minutes (Reports.row_workMinutes Time.instant <$> Sample.fetched).
Proof.
  destruct (reduce_total (N := integers) Time.instant Sample.fetched ∅
              sample_is_groupable) as [groups Hgroups].
  destruct (shown_total_is_sum_of_shown_rows Time.instant (Some Sample.fetched)
              groups Hgroups) as (Hshown & Htables & _).
  destruct (Hshown (embed_schedule Sample.store
                      (Sample.report "r1" "s1" "2024-12-02T09:00"
                         "2024-12-02T17:00" "60")) (or_introl eq_refl))
    as (uid & g & Hown & Hg & _).
  injection Hown as <-.
  destruct (Htables _ g Hg) as (Hrows & Htotal).
  exists groups, g. split; [exact Hgroups | split; [exact Hg|]].
  rewrite Htotal, Hrows. split; reflexivity.
Defined.

(** * Further properties of the handlers *)

(** ** Schedule route: creating and listing *)

Lemma owned_by_filter_ne (u : string) (owner : option string) (l : list Schedule) :
  (forall s, In s l -> user_id s = Some u) ->
  owner <> Some u ->
  List.filter (Schedule.owned_by owner) l = [].
Proof.
  intros Hall Hne. induction l as [|s l IH]; simpl; [reflexivity|].
  rewrite IH by (intros s' Hs'; apply Hall; right; exact Hs').
  unfold Schedule.owned_by. rewrite (Hall s) by (left; reflexivity).
  destruct owner as [v|]; [|reflexivity].
  destruct (String.eqb_spec u v); [congruence | reflexivity].
Qed.

Lemma listed_schedules_of_loader {reads : Reading} (owner : option string)
    (st : Store) :
  Schedule.listed_schedule <$>
    (Schedule.embed_reports st <$>
       order_by (fun s : Schedule => read_instant (start_time s))
         (List.filter (Schedule.owned_by owner) (schedules st)))
  ≡ₚ List.filter (Schedule.owned_by owner) (schedules st).
Proof.
  rewrite <- list_fmap_compose.
  erewrite list_fmap_ext; [rewrite list_fmap_id; apply order_by_perm|].
  intros _ s _. reflexivity.
Qed.

Lemma create_flow
    (env : Env) (formData : FormData) (st : Store) (data : ScheduleData) :
  formData_get formData "intent" = Some "create" ->
  Schedule.create_payload formData = ParseOk data ->
  let insert := InsertSchedule (auth_user env) data in
  run (Schedule.action env formData) st =
    (if store_accepts env
     then {| calls := [insert];
             final := {| profiles := profiles st;
                         schedules :=
                           schedules st ++
                           [{| sched_id := fresh_id env;
                               user_id := auth_user env;
                               sched_data := data |}];
                         reports := reports st |};
             answer := Success |}
     else {| calls := [insert]; final := st;
             answer := Error "予定の登録に失敗しました" |}).
Proof.
  intros Hintent Hparse insert.
  unfold Schedule.action. rewrite Hintent. step_handler.
  rewrite Hparse. simpl. destruct (store_accepts env); reflexivity.
Qed.

(** X1: a valid "create" submission issues one insert of a schedule that
    carries the posted fields and the id of the current user; nothing
    requires a current user, without one the row is inserted with a null
    user_id.  A rejected insert leaves the tables unchanged and is answered
    with the registration error. *)
Theorem create_inserts_for_current_user
    (env : Env) (formData : FormData) (st : Store) (data : ScheduleData) :
  formData_get formData "intent" = Some "create" ->
  Schedule.create_payload formData = ParseOk data ->
  let insert := InsertSchedule (auth_user env) data in
  run (Schedule.action env formData) st =
    (if store_accepts env
     then {| calls := [insert];
             final := {| profiles := profiles st;
                         schedules :=
                           schedules st ++
                           [{| sched_id := fresh_id env;
                               user_id := auth_user env;
                               sched_data := data |}];
                         reports := reports st |};
             answer := Success |}
     else {| calls := [insert]; final := st;
             answer := Error "予定の登録に失敗しました" |}).
Proof.
  intros Hintent Hparse insert.
  unfold Schedule.action. rewrite Hintent. step_handler.
  rewrite Hparse. simpl. destruct (store_accepts env); reflexivity.
Qed.

Lemma create_inserts_for_current_user_witness :
  let data := {| start_time := "2024-12-04T09:00"; end_time := "2024-12-04T17:00";
                 location := "office"; description := "desk work" |} in
  run (Schedule.action Sample.anonymous_env
         [ ("intent", "create"); ("start_time", "2024-12-04T09:00");
           ("end_time", "2024-12-04T17:00"); ("location", "office");
           ("description", "desk work") ]) Sample.store =
    {| calls := [InsertSchedule None data];
       final := {| profiles := profiles Sample.store;
                   schedules :=
                     schedules Sample.store ++
                     [{| sched_id := "n1"; user_id := None; sched_data := data |}];
                   reports := reports Sample.store |};
       answer := Success |}.
Proof.
  intros data.
  apply (create_inserts_for_current_user Sample.anonymous_env
           [ ("intent", "create"); ("start_time", "2024-12-04T09:00");
             ("end_time", "2024-12-04T17:00"); ("location", "office");
             ("description", "desk work") ] Sample.store data);
    reflexivity.
Defined.

(** X2: after an accepted "create" by user u, the next schedule read of u
    lists the schedules it listed before and the new one, once; the read of
    every other caller is what it was. *)
Theorem created_schedule_is_listed_once
    (env : Env) (formData : FormData) (st : Store) (data : ScheduleData)
    (u : string) :
  formData_get formData "intent" = Some "create" ->
  Schedule.create_payload formData = ParseOk data ->
  auth_user env = Some u ->
  store_accepts env = true ->
  let st' := final (run (Schedule.action env formData) st) in
  let row := {| sched_id := fresh_id env; user_id := Some u; sched_data := data |} in
  (exists before after,
      Schedule.loader env st = Json before /\
      Schedule.loader env st' = Json after /\
      Schedule.listed_schedule <$> after
        ≡ₚ (Schedule.listed_schedule <$> before) ++ [row])
  /\ (forall other,
        auth_user other <> Some u ->
        Schedule.loader other st' = Schedule.loader other st).
Proof.
  intros Hintent Hparse Huser Haccepts st' row.
  assert (Hst' : st' = {| profiles := profiles st;
                          schedules := schedules st ++ [row];
                          reports := reports st |}).
  { subst st' row.
    rewrite (create_flow env formData st data Hintent Hparse).
    rewrite Haccepts, Huser. reflexivity. }
  split.
  - eexists _, _. split; [reflexivity | split; [reflexivity|]].
    rewrite !listed_schedules_of_loader, Hst', Huser. simpl.
    rewrite List.filter_app. simpl.
    unfold Schedule.owned_by at 2. simpl. rewrite String.eqb_refl. reflexivity.
  - intros other Hother. rewrite Hst'. unfold Schedule.loader. simpl.
    rewrite List.filter_app.
    rewrite (owned_by_filter_ne u (auth_user other) [row]);
      [| intros s [<-|[]]; reflexivity | exact Hother].
    rewrite app_nil_r. reflexivity.
Qed.

Lemma created_schedule_is_listed_once_witness :
  let form := [ ("intent", "create"); ("start_time", "2024-12-04T09:00");
                ("end_time", "2024-12-04T17:00"); ("location", "office");
                ("description", "desk work") ] in
  let st' := final (run (Schedule.action Sample.member_env form) Sample.store) in
  exists before after,
    Schedule.loader Sample.member_env Sample.store = Json before /\
    Schedule.loader Sample.member_env st' = Json after /\
    length before = 2%nat /\ length after = 3%nat.
Proof.
  intros form st'.
  destruct (created_schedule_is_listed_once Sample.member_env form Sample.store
              _ "u2" eq_refl eq_refl eq_refl eq_refl)
    as [(before & after & Hb & Ha & Hperm) _].
  exists before, after. split; [exact Hb | split; [exact Ha|]].
  injection Hb as <-. injection Ha as <-. split; reflexivity.
Defined.

(** X3: whatever the store's reading of timestamps, the schedule read
    returns the schedules whose user_id is the current user's id and no
    other, each before all those whose start_time the store reads as a
    later instant (those it reads no instant from come last), each with
    exactly the reports that refer to it; a caller without a user gets an
    empty list. *)
Theorem schedule_loader_lists_own_schedules
    {reads : Reading} (env : Env) (st : Store) :
  exists listed,
    Schedule.loader env st = Json listed /\
    Schedule.listed_schedule <$> listed
      ≡ₚ List.filter
           (fun s : Schedule =>
              bool_decide (is_Some (auth_user env) /\ user_id s = auth_user env))
           (schedules st) /\
    StronglySorted
      (ascending (fun l : Schedule.Listed =>
                    read_instant (start_time (Schedule.listed_schedule l))))
      listed /\
    Forall (fun l : Schedule.Listed =>
              forall r, In r (Schedule.listed_reports l) <->
                        In r (reports st) /\
                        schedule_id r = Some (sched_id (Schedule.listed_schedule l)))
           listed /\
    (auth_user env = None -> listed = []).
Proof.
  eexists. split; [reflexivity|]. split; [|split; [|split]].
  - rewrite listed_schedules_of_loader.
    erewrite List.filter_ext; [reflexivity|].
    intros s. unfold Schedule.owned_by.
    destruct (auth_user env) as [u|], (user_id s) as [owner|];
      try (symmetry; apply bool_decide_eq_false_2;
           intros [[? ?] ?]; discriminate).
    destruct (String.eqb_spec owner u) as [->|Hne]; symmetry.
    + apply bool_decide_eq_true_2. split; [eexists|]; reflexivity.
    + apply bool_decide_eq_false_2. intros [_ ?]. congruence.
  - apply (strongly_sorted_fmap (Schedule.embed_reports st)
             (fun l : Schedule.Listed =>
                read_instant (start_time (Schedule.listed_schedule l)))).
    apply (order_by_strongly_ascending
             (fun s : Schedule => read_instant (start_time s))).
  - apply Forall_fmap, Forall_forall. intros s _ r. simpl.
    rewrite List.filter_In. unfold id_matches.
    destruct (schedule_id r) as [k|]; simpl.
    + rewrite String.eqb_eq. split; intros [H1 H2]; split; congruence.
    + split; intros [H1 H2]; discriminate.
  - intros Hnone. rewrite Hnone.
    replace (List.filter (Schedule.owned_by None) (schedules st)) with (@nil Schedule);
      [reflexivity|].
    induction (schedules st) as [|s l IH]; simpl; [reflexivity | exact IH].
Qed.

Lemma report_insert_is_unchecked_flow
    (env : Env) (formData : FormData) (st : Store) (data : ReportData) :
  formData_get formData "intent" = Some "report" ->
  Schedule.report_payload formData = ParseOk data ->
  run (Schedule.action env formData) st =
    (if store_accepts env
     then {| calls := [InsertReport (formData_get formData "schedule_id") data];
             final := perform env
                        (InsertReport (formData_get formData "schedule_id") data) st;
             answer := Success |}
     else {| calls := [InsertReport (formData_get formData "schedule_id") data];
             final := st;
             answer := Error "実績の登録に失敗しました" |}).
Proof.
  intros Hintent Hparse.
  unfold Schedule.action. rewrite Hintent. step_handler.
  rewrite Hparse. simpl. destruct (store_accepts env); reflexivity.
Qed.

(** ** Schedule page: the report button *)

(** X4: the report button of a listed schedule is offered exactly when its
    end_time is a date strictly before now and no report is embedded, never
    together with the "reported" badge and never for an end_time that is
    not a date.  After an accepted "report" submission naming a schedule,
    that schedule is listed with the badge and without the button, whatever
    the clock. *)
Theorem report_button_goes_after_report (parseISO : string -> option Z) :
  (forall now (s : Schedule.Listed),
      Schedule.report_button parseISO now s = true <->
      (exists e, parseISO (end_time (Schedule.listed_schedule s)) = Some e /\
                 e < now) /\
      Schedule.listed_reports s = [])
  /\ (forall now (s : Schedule.Listed),
        Schedule.report_button parseISO now s && Schedule.reported_badge s = false)
  /\ (forall env formData st data (s : Schedule) now,
        formData_get formData "intent" = Some "report" ->
        Schedule.report_payload formData = ParseOk data ->
        formData_get formData "schedule_id" = Some (sched_id s) ->
        store_accepts env = true ->
        let st' := final (run (Schedule.action env formData) st) in
        Schedule.reported_badge (Schedule.embed_reports st' s) = true /\
        Schedule.report_button parseISO now (Schedule.embed_reports st' s) = false).
Proof.
  split; [|split].
  - intros now s. unfold Schedule.report_button, Schedule.isAfter, Schedule.has_report.
    rewrite andb_true_iff, negb_true_iff.
    destruct (parseISO (end_time (Schedule.listed_schedule s))) as [e|]; split.
    + intros [He Hr]. apply Z.ltb_lt in He.
      split; [eauto|]. destruct (Schedule.listed_reports s); [reflexivity | discriminate].
    + intros [(e' & He' & Hlt) Hr]. injection He' as <-. rewrite Hr.
      split; [apply Z.ltb_lt; exact Hlt | reflexivity].
    + intros [He _]. discriminate.
    + intros [(e' & He' & _) _]. discriminate.
  - intros now s. unfold Schedule.report_button, Schedule.reported_badge.
    destruct (Schedule.has_report s); simpl;
      [rewrite andb_false_r | rewrite andb_false_r]; reflexivity.
  - intros env formData st data s now Hintent Hparse Hsid Haccepts st'.
    pose proof (report_insert_is_unchecked_flow env formData st data Hintent Hparse)
      as Hrun.
    assert (Hbadge : Schedule.reported_badge (Schedule.embed_reports st' s) = true).
    { subst st'. rewrite Hrun, Haccepts. simpl.
      unfold Schedule.reported_badge, Schedule.has_report. simpl.
      rewrite List.filter_app. simpl. rewrite Hsid. simpl.
      rewrite String.eqb_refl.
      destruct (List.filter _ (reports st)); reflexivity. }
    split; [exact Hbadge|].
    unfold Schedule.report_button. unfold Schedule.reported_badge in Hbadge.
    rewrite Hbadge. apply andb_false_r.
Qed.

Lemma report_button_goes_after_report_witness :
  let st := {| profiles := profiles Sample.store;
               schedules := schedules Sample.store;
               reports := [] |} in
  let s := Sample.schedule "s1" "u2" "2024-12-02" in
  let now := 1733270400000 in
  let st' := final (run (Schedule.action Sample.member_env
                           (Sample.report_form "s1" "60")) st) in
  Schedule.report_button Time.instant now (Schedule.embed_reports st s) = true /\
  Schedule.reported_badge (Schedule.embed_reports st' s) = true /\
  Schedule.report_button Time.instant now (Schedule.embed_reports st' s) = false.
Proof.
  intros st s now st'.
  destruct (report_button_goes_after_report Time.instant) as (_ & _ & Hafter).
  split; [reflexivity|].
  eapply (Hafter Sample.member_env (Sample.report_form "s1" "60") st);
    reflexivity.
Defined.

(** ** Members route: the action *)

Lemma refused_flow
    (is_email : string -> bool) (env : Env) (formData : FormData) (st : Store) :
  admin_flag (profile_of (auth_user env) st) = false ->
  run (Members.action is_email env formData) st =
    {| calls := []; final := st; answer := Error "管理者以外は実行できません" |}.
Proof.
  intros Hadmin. unfold Members.action. step_handler. rewrite Hadmin. reflexivity.
Qed.

(** X5: whatever the submitted form, a caller whose profile does not carry
    the admin flag (a caller without a user included) is refused by the
    members action before the form is read: no call is issued and the
    tables are unchanged. *)
Theorem members_action_refuses_others
    (is_email : string -> bool) (env : Env) (formData : FormData) (st : Store) :
  admin_flag (profile_of (auth_user env) st) = false ->
  run (Members.action is_email env formData) st =
    {| calls := []; final := st; answer := Error "管理者以外は実行できません" |}.
Proof.
  intros Hadmin. unfold Members.action. step_handler. rewrite Hadmin. reflexivity.
Qed.

Lemma members_action_refuses_others_witness :
  run (Members.action Sample.is_email Sample.anonymous_env
         [("intent", "invite"); ("email", "carol@example.com");
          ("full_name", "carol")]) Sample.store =
    {| calls := []; final := Sample.store;
       answer := Error "管理者以外は実行できません" |}.
Proof.
  apply members_action_refuses_others. reflexivity.
Defined.

Lemma invite_flow
    (is_email : string -> bool) (env : Env) (formData : FormData) (st : Store)
    (email name : string) :
  admin_flag (profile_of (auth_user env) st) = true ->
  formData_get formData "intent" = Some "invite" ->
  formData_get formData "email" = Some email ->
  formData_get formData "full_name" = Some name ->
  run (Members.action is_email env formData) st =
    (if is_email email && negb (String.eqb name "")
     then
       {| calls := [SignInWithOtp email name]; final := st;
          answer := if store_accepts env then Success
                    else Error "招待メールの送信に失敗しました" |}
     else
       {| calls := []; final := st;
          answer :=
            Errors
              ((if is_email email then []
                else [("email", [Text "有効なメールアドレスを入力してください"])])
               ++ (if String.eqb name "" then
                     [("full_name", [Text "名前を入力してください"])]
                   else [])) |}).
Proof.
  intros Hadmin Hintent Hemail Hname.
  unfold Members.action. step_handler. rewrite Hadmin. simpl.
  rewrite Hintent, Hemail, Hname. simpl.
  unfold Members.inviteSchema_safeParse, Members.inviteSchema_issues,
    Members.z_string_email. simpl.
  destruct (is_email email), name as [|c name']; simpl; try reflexivity.
  destruct (store_accepts env); reflexivity.
Qed.

(** X6: an "invite" submitted by an administrator with an e-mail of the
    right shape and a non-empty name asks the identity provider for one
    sign-in link to that address, carrying the name; nothing is looked up
    first, so the invitation is sent whatever profiles exist.  With a
    malformed e-mail or an empty name no call is made and the issues of
    the two fields are returned.  In no case does an invite change the
    tables. *)
Theorem invite_asks_for_one_sign_in_link
    (is_email : string -> bool) (env : Env) (formData : FormData) (st : Store)
    (email name : string) :
  admin_flag (profile_of (auth_user env) st) = true ->
  formData_get formData "intent" = Some "invite" ->
  formData_get formData "email" = Some email ->
  formData_get formData "full_name" = Some name ->
  run (Members.action is_email env formData) st =
    (if is_email email && negb (String.eqb name "")
     then
       {| calls := [SignInWithOtp email name]; final := st;
          answer := if store_accepts env then Success
                    else Error "招待メールの送信に失敗しました" |}
     else
       {| calls := []; final := st;
          answer :=
            Errors
              ((if is_email email then []
                else [("email", [Text "有効なメールアドレスを入力してください"])])
               ++ (if String.eqb name "" then
                     [("full_name", [Text "名前を入力してください"])]
                   else [])) |}).
Proof.
  intros Hadmin Hintent Hemail Hname.
  unfold Members.action. step_handler. rewrite Hadmin. simpl.
  rewrite Hintent, Hemail, Hname. simpl.
  unfold Members.inviteSchema_safeParse, Members.inviteSchema_issues,
    Members.z_string_email. simpl.
  destruct (is_email email), name as [|c name']; simpl; try reflexivity.
  destruct (store_accepts env); reflexivity.
Qed.

Lemma invite_asks_for_one_sign_in_link_witness :
  run (Members.action Sample.is_email Sample.admin_env
         [("intent", "invite"); ("email", "bob@example.com");
          ("full_name", "bob")]) Sample.store =
    {| calls := [SignInWithOtp "bob@example.com" "bob"]; final := Sample.store;
       answer := Success |}
  /\ run (Members.action Sample.is_email Sample.admin_env
            [("intent", "invite"); ("email", "nobody"); ("full_name", "")])
         Sample.store =
    {| calls := []; final := Sample.store;
       answer :=
         Errors [("email", [Text "有効なメールアドレスを入力してください"]);
                 ("full_name", [Text "名前を入力してください"])] |}.
Proof.
  split.
  - apply (invite_asks_for_one_sign_in_link Sample.is_email Sample.admin_env
             [("intent", "invite"); ("email", "bob@example.com");
              ("full_name", "bob")] Sample.store "bob@example.com" "bob");
      reflexivity.
  - apply (invite_asks_for_one_sign_in_link Sample.is_email Sample.admin_env
             [("intent", "invite"); ("email", "nobody"); ("full_name", "")]
             Sample.store "nobody" "");
      reflexivity.
Defined.

(** ** What the actions never do *)

Lemma two_intents (i : string) :
  String.eqb i "create" = true -> String.eqb i "report" = true -> False.
Proof.
  rewrite !String.eqb_eq. intros -> H. discriminate H.
Qed.

Lemma two_member_intents (i : string) :
  String.eqb i "invite" = true -> String.eqb i "delete" = true -> False.
Proof.
  rewrite !String.eqb_eq. intros -> H. discriminate H.
Qed.

Lemma filter_sublist {A : Type} (f : A -> bool) (l : list A) :
  List.filter f l `sublist_of` l.
Proof.
  induction l as [|x l IH]; simpl; [reflexivity|].
  destruct (f x); [apply sublist_skip | apply sublist_cons]; exact IH.
Qed.

(** X7: for every form, caller and state of the tables the schedule action
    issues at most one call, changes the tables only when it answers with
    success, never touches the profiles, and keeps every schedule and every
    report that was there, in order: at most one row is appended. *)
Theorem schedule_action_only_appends
    (env : Env) (formData : FormData) (st : Store) :
  let out := run (Schedule.action env formData) st in
  (length (calls out) <= 1)%nat /\
  (answer out <> Success -> final out = st) /\
  profiles (final out) = profiles st /\
  schedules st `prefix_of` schedules (final out) /\
  reports st `prefix_of` reports (final out) /\
  (length (schedules (final out)) + length (reports (final out))
   <= length (schedules st) + length (reports st) + 1)%nat.
Proof.
  unfold Schedule.action. step_handler.
  destruct (formData_get formData "intent") as [i|]; simpl.
  - destruct (String.eqb i "create") eqn:Hc, (String.eqb i "report") eqn:Hr;
      simpl.
    + destruct (two_intents i Hc Hr).
    + destruct (Schedule.create_payload formData); simpl;
        [destruct (store_accepts env); simpl|];
        repeat split; try lia; try congruence; try reflexivity;
        rewrite ?length_app; simpl; try lia; try apply prefix_app_r; reflexivity.
    + destruct (Schedule.report_payload formData); simpl;
        [destruct (store_accepts env); simpl|];
        repeat split; try lia; try congruence; try reflexivity;
        rewrite ?length_app; simpl; try lia; try apply prefix_app_r; reflexivity.
    + repeat split; try lia; try reflexivity.
  - repeat split; try lia; try reflexivity.
Qed.

(** X8: for every form, caller and state of the tables the members action
    issues at most one call, changes the tables only when it answers with
    success, never touches the schedules or the reports, and never adds or
    alters a profile: the profiles afterwards are profiles from before, in
    their order. *)
Theorem members_action_only_removes
    (is_email : string -> bool) (env : Env) (formData : FormData) (st : Store) :
  let out := run (Members.action is_email env formData) st in
  (length (calls out) <= 1)%nat /\
  (answer out <> Success -> final out = st) /\
  schedules (final out) = schedules st /\
  reports (final out) = reports st /\
  profiles (final out) `sublist_of` profiles st.
Proof.
  unfold Members.action. step_handler.
  destruct (admin_flag (profile_of (auth_user env) st)); simpl;
    [|repeat split; try lia; reflexivity].
  destruct (formData_get formData "intent") as [i|]; simpl;
    [|repeat split; try lia; reflexivity].
  destruct (String.eqb i "invite") eqn:Hi, (String.eqb i "delete") eqn:Hd; simpl.
  - destruct (two_member_intents i Hi Hd).
  - destruct (Members.inviteSchema_safeParse _ _ _); simpl;
      [destruct (store_accepts env); simpl|];
      repeat split; try lia; try congruence; reflexivity.
  - destruct (store_accepts env); simpl;
      repeat split; try lia; try congruence; try reflexivity.
    apply filter_sublist.
  - repeat split; try lia; reflexivity.
Qed.

(** ** What the schemas let through *)

(** X9: the schedule schema accepts a payload exactly when its four fields
    are strings and location and description are not empty; start_time and
    end_time may hold any text, in any order.  The invite schema accepts
    exactly an e-mail of the right shape together with a non-empty name.
    The accepted data is the posted text, unchanged. *)
Theorem schedule_and_invite_schemas_accept :
  (forall (s e l d : option string) (data : ScheduleData),
      scheduleSchema_safeParse s e l d = ParseOk data <->
      s = Some (start_time data) /\ e = Some (end_time data) /\
      l = Some (location data) /\ d = Some (description data) /\
      location data <> "" /\ description data <> "")
  /\ (forall (is_email : string -> bool) (e n : option string)
             (data : Members.InviteData),
        Members.inviteSchema_safeParse is_email e n = ParseOk data <->
        e = Some (Members.invite_email data) /\
        n = Some (Members.invite_full_name data) /\
        is_email (Members.invite_email data) = true /\
        Members.invite_full_name data <> "").
Proof.
  split.
  - intros s e l d data.
    unfold scheduleSchema_safeParse, scheduleSchema_issues. split.
    + destruct s, e, l as [[|]|], d as [[|]|]; simpl; intros H;
        inversion H; subst; simpl; repeat split; discriminate.
    + destruct data as [s' e' l' d']. simpl.
      intros (-> & -> & -> & -> & Hl & Hd).
      destruct l'; [congruence|]. destruct d'; [congruence|]. reflexivity.
  - intros is_email e n data.
    unfold Members.inviteSchema_safeParse, Members.inviteSchema_issues,
      Members.z_string_email. split.
    + destruct e as [e'|], n as [[|]|]; simpl;
        try destruct (is_email e') eqn:He; simpl; intros H;
        inversion H; subst; simpl; repeat split; try discriminate; exact He.
    + destruct data as [e' n']. simpl. intros (-> & -> & He & Hn).
      rewrite He. destruct n'; [congruence | reflexivity].
Qed.

(** ** Deleting members *)

Lemma removed_profile_is_gone (uid : string) (l : list Profile) :
  List.filter (fun p => String.eqb (profile_id p) uid)
    (List.filter (fun p => negb (String.eqb (profile_id p) uid)) l) = [].
Proof.
  induction l as [|p l IH]; simpl; [reflexivity|].
  destruct (String.eqb (profile_id p) uid) eqn:E; simpl; [exact IH|].
  rewrite E. exact IH.
Qed.

Lemma remove_twice (uid : string) (l : list Profile) :
  List.filter (fun p => negb (String.eqb (profile_id p) uid))
    (List.filter (fun p => negb (String.eqb (profile_id p) uid)) l) =
  List.filter (fun p => negb (String.eqb (profile_id p) uid)) l.
Proof.
  induction l as [|p l IH]; simpl; [reflexivity|].
  destruct (String.eqb (profile_id p) uid) eqn:E; simpl; [exact IH|].
  rewrite E. simpl. rewrite IH. reflexivity.
Qed.

Lemma remove_absent (uid : string) (l : list Profile) :
  (forall p, In p l -> profile_id p <> uid) ->
  List.filter (fun p => negb (String.eqb (profile_id p) uid)) l = l.
Proof.
  intros Habsent. induction l as [|p l IH]; simpl; [reflexivity|].
  destruct (String.eqb_spec (profile_id p) uid) as [E|_]; simpl.
  - destruct (Habsent p (or_introl eq_refl) E).
  - f_equal. apply IH. intros q Hq. apply Habsent. right. exact Hq.
Qed.

(** X10: nothing keeps an administrator from deleting the own profile.
    After an accepted delete of the caller's own id the caller has no
    profile any more: both administrator pages throw the access-denied
    error and the members action refuses every further submission. *)
Theorem administrator_can_delete_own_profile
    (is_email : string -> bool) (env : Env) (formData : FormData) (st : Store)
    (u : string) (now : Reports.Clock) (params : Reports.URLSearchParams) :
  auth_user env = Some u ->
  admin_flag (profile_of (Some u) st) = true ->
  formData_get formData "intent" = Some "delete" ->
  formData_get formData "user_id" = Some u ->
  store_accepts env = true ->
  let out := run (Members.action is_email env formData) st in
  answer out = Success /\
  profile_of (Some u) (final out) = None /\
  Members.loader env (final out) = Throw "管理者以外はアクセスできません" /\
  Reports.loader env now params (final out) = Throw "管理者以外はアクセスできません" /\
  (forall next,
      run (Members.action is_email env next) (final out) =
        {| calls := []; final := final out;
           answer := Error "管理者以外は実行できません" |}).
Proof.
  intros Huser Hadmin Hintent Hid Haccepts out.
  assert (Hout : out =
    {| calls := [DeleteProfile (Some u)];
       final := perform env (DeleteProfile (Some u)) st; answer := Success |}).
  { subst out. unfold Members.action. step_handler.
    rewrite Huser, Hadmin. simpl. rewrite Hintent, Hid. simpl.
    rewrite Haccepts. reflexivity. }
  assert (Hgone : profile_of (Some u) (final out) = None).
  { rewrite Hout. unfold profile_of. simpl.
    rewrite removed_profile_is_gone. reflexivity. }
  split; [rewrite Hout; reflexivity|]. split; [exact Hgone|].
  split; [|split].
  - unfold Members.loader. rewrite Huser, Hgone. reflexivity.
  - unfold Reports.loader. rewrite Huser, Hgone. reflexivity.
  - intros next. apply refused_flow.
    rewrite Huser, Hgone. reflexivity.
Qed.

Lemma administrator_can_delete_own_profile_witness :
  let out := run (Members.action Sample.is_email Sample.admin_env
                    [("intent", "delete"); ("user_id", "u1")]) Sample.store in
  answer out = Success /\
  Members.loader Sample.admin_env Sample.store <> Throw "管理者以外はアクセスできません" /\
  Members.loader Sample.admin_env (final out) = Throw "管理者以外はアクセスできません".
Proof.
  intros out.
  destruct (administrator_can_delete_own_profile Sample.is_email Sample.admin_env
              [("intent", "delete"); ("user_id", "u1")] Sample.store "u1"
              Sample.clock [] eq_refl eq_refl eq_refl eq_refl eq_refl)
    as (Hanswer & _ & Hmembers & _).
  split; [exact Hanswer | split; [discriminate | exact Hmembers]].
Defined.

(** X11: a delete naming an id that no profile has is not an error: the
    administrator is answered with success and the tables are what they
    were.  Once a delete has been accepted no profile has the id any more,
    and submitting the same delete again changes nothing, whoever submits
    it and whatever the store answers then. *)
Theorem delete_of_unknown_id_succeeds
    (is_email : string -> bool) (env : Env) (formData : FormData) (st : Store)
    (uid : string) :
  formData_get formData "intent" = Some "delete" ->
  formData_get formData "user_id" = Some uid ->
  admin_flag (profile_of (auth_user env) st) = true ->
  store_accepts env = true ->
  let once := run (Members.action is_email env formData) st in
  ((forall p, In p (profiles st) -> profile_id p <> uid) ->
   once = {| calls := [DeleteProfile (Some uid)]; final := st;
             answer := Success |})
  /\ (forall p, In p (profiles (final once)) -> profile_id p <> uid)
  /\ (forall again : Env,
        final (run (Members.action is_email again formData) (final once))
        = final once).
Proof.
  intros Hintent Hid Hadmin Haccepts once.
  assert (Hact : forall (e : Env) (s : Store),
    run (Members.action is_email e formData) s =
    if admin_flag (profile_of (auth_user e) s)
    then if store_accepts e
         then {| calls := [DeleteProfile (Some uid)];
                 final := perform e (DeleteProfile (Some uid)) s;
                 answer := Success |}
         else {| calls := [DeleteProfile (Some uid)]; final := s;
                 answer := Error "メンバーの削除に失敗しました" |}
    else {| calls := []; final := s;
            answer := Error "管理者以外は実行できません" |}).
  { intros e s. unfold Members.action. step_handler.
    destruct (admin_flag (profile_of (auth_user e) s)); simpl; [|reflexivity].
    rewrite Hintent, Hid. simpl. destruct (store_accepts e); reflexivity. }
  assert (Honce : once =
    {| calls := [DeleteProfile (Some uid)];
       final := perform env (DeleteProfile (Some uid)) st; answer := Success |}).
  { subst once. rewrite Hact, Hadmin, Haccepts. reflexivity. }
  split; [|split].
  - intros Habsent. rewrite Honce. f_equal.
    destruct st as [ps ss rs]. simpl in *.
    rewrite remove_absent by exact Habsent. reflexivity.
  - intros p. rewrite Honce. simpl. rewrite List.filter_In.
    intros [_ Hp]. apply negb_true_iff, String.eqb_neq in Hp. exact Hp.
  - intros again. rewrite Honce. cbn [final]. rewrite Hact.
    destruct (admin_flag
                (profile_of (auth_user again)
                   (perform env (DeleteProfile (Some uid)) st)));
      [|reflexivity].
    destruct (store_accepts again); [|reflexivity].
    cbn [final]. simpl. rewrite remove_twice. reflexivity.
Qed.

Lemma delete_of_unknown_id_succeeds_witness :
  run (Members.action Sample.is_email Sample.admin_env
         [("intent", "delete"); ("user_id", "u9")]) Sample.store =
    {| calls := [DeleteProfile (Some "u9")]; final := Sample.store;
       answer := Success |}
  /\ (let once := run (Members.action Sample.is_email Sample.admin_env
                         [("intent", "delete"); ("user_id", "u2")]) Sample.store in
      profiles (final once) = [Sample.profile "u1" "alice" true] /\
      final (run (Members.action Sample.is_email Sample.admin_env
                    [("intent", "delete"); ("user_id", "u2")]) (final once))
      = final once).
Proof.
  split.
  - apply (proj1 (delete_of_unknown_id_succeeds Sample.is_email Sample.admin_env
                    [("intent", "delete"); ("user_id", "u9")] Sample.store "u9"
                    eq_refl eq_refl eq_refl eq_refl)).
    intros p [<-|[<-|[]]]; discriminate.
  - split; [reflexivity|].
    apply (proj2 (proj2 (delete_of_unknown_id_succeeds Sample.is_email
                           Sample.admin_env
                           [("intent", "delete"); ("user_id", "u2")]
                           Sample.store "u2" eq_refl eq_refl eq_refl eq_refl))).
Defined.

(** ** Navigation and the administrator pages *)

(** X12: for a signed-in user the navigation bar always offers the
    schedule page, and it offers the Reports and the Members page exactly
    when their loaders let that user in: a link is never shown to a page
    that would throw, and never hidden from a user the page admits. *)
Theorem navigation_matches_the_gates
    (session : AppLayout.Session) (env : Env) (st : Store)
    (now : Reports.Clock) (params : Reports.URLSearchParams) :
  auth_user env = Some (AppLayout.session_user session) ->
  exists data,
    AppLayout.loader (Some session) st = Json data /\
    In AppLayout.ScheduleLink (AppLayout.nav_links data) /\
    (In AppLayout.ReportsLink (AppLayout.nav_links data) <->
     exists d, Reports.loader env now params st = Json d) /\
    (In AppLayout.MembersLink (AppLayout.nav_links data) <->
     exists members, Members.loader env st = Json members).
Proof.
  intros Huser. eexists. split; [reflexivity|].
  unfold AppLayout.nav_links, Reports.loader, Members.loader. simpl.
  rewrite Huser.
  destruct (profile_of (Some (AppLayout.session_user session)) st) as [p|]; simpl.
  - destruct (is_admin p); simpl.
    + split; [tauto|]. split; split; eauto.
    + split; [tauto|].
      split; split; try (intros [d Hd]; discriminate);
        intros [H|[]]; discriminate.
  - split; [tauto|].
    split; split; try (intros [d Hd]; discriminate);
      intros [H|[]]; discriminate.
Qed.

Lemma navigation_matches_the_gates_witness :
  exists data,
    AppLayout.loader (Some {| AppLayout.session_user := "u2" |}) Sample.store
      = Json data /\
    AppLayout.nav_links data = [AppLayout.ScheduleLink] /\
    ~ exists members, Members.loader Sample.member_env Sample.store = Json members.
Proof.
  destruct (navigation_matches_the_gates {| AppLayout.session_user := "u2" |}
              Sample.member_env Sample.store Sample.clock [] eq_refl)
    as (data & Hdata & _ & _ & Hmembers).
  exists data. split; [exact Hdata|].
  injection Hdata as <-. split; [reflexivity|].
  intros H. apply Hmembers in H. destruct H as [H|[]]; discriminate.
Defined.

(** ** Members page: what the invite form shows *)

(** X13: after an "invite" by an administrator the invite form shows the
    schema's message under the e-mail field exactly when the address is
    malformed and under the name field exactly when the name is empty.
    The page has no place for the other answers: a refusal, for whatever
    form, puts no paragraph under any field, and neither does an
    invitation whose sending failed. *)
Theorem invite_form_messages
    (is_email : string -> bool) (env : Env) (st : Store) :
  (forall formData email name,
      admin_flag (profile_of (auth_user env) st) = true ->
      formData_get formData "intent" = Some "invite" ->
      formData_get formData "email" = Some email ->
      formData_get formData "full_name" = Some name ->
      let shown :=
        Members.field_paragraph
          (Some (answer (run (Members.action is_email env formData) st))) in
      shown "email" =
        (if is_email email then None
         else Some (Some (Text "有効なメールアドレスを入力してください"))) /\
      shown "full_name" =
        (if String.eqb name "" then Some (Some (Text "名前を入力してください"))
         else None))
  /\ (forall formData field,
        admin_flag (profile_of (auth_user env) st) = false ->
        Members.field_paragraph
          (Some (answer (run (Members.action is_email env formData) st))) field
        = None).
Proof.
  split.
  - intros formData email name Hadmin Hintent Hemail Hname shown. subst shown.
    rewrite (invite_flow is_email env formData st email name
               Hadmin Hintent Hemail Hname).
    destruct (is_email email), name as [|c name']; simpl;
      try (destruct (store_accepts env)); split; reflexivity.
  - intros formData field Hadmin.
    rewrite (refused_flow is_email env formData st Hadmin).
    reflexivity.
Qed.

(** ** Reports page: hours and minutes *)

(** X14: the hours and minutes shown for a total (and for a row) are
    [Math.floor(m / 60)] and [m % 60].  For a total that is not negative
    they add up to the total, with minutes from 0 to 59.  For a negative
    total that is not a whole number of hours they do not: the remainder
    keeps the sign of the total while the hours are rounded down, so hours
    and minutes together are one hour less than the total (-30 is shown as
    -1 hour and -30 minutes). *)
Theorem shown_hours_and_minutes (m : Z) :
  exists h mi,
    Reports.hours_minutes (Some m) = Some (h, mi) /\
    (0 <= m -> h * 60 + mi = m /\ 0 <= mi < 60) /\
    (m < 0 -> m mod 60 = 0 -> h * 60 + mi = m /\ mi = 0) /\
    (m < 0 -> m mod 60 <> 0 -> h * 60 + mi = m - 60 /\ -60 < mi < 0).
Proof.
  exists (m / 60), (Z.rem m 60). split; [reflexivity|].
  repeat split; intros; Z.to_euclidean_division_equations; lia.
Qed.

Lemma shown_hours_and_minutes_witness :
  exists h mi,
    Reports.hours_minutes (Some (-30)) = Some (h, mi) /\ h * 60 + mi = -90.
Proof.
  destruct (shown_hours_and_minutes (-30)) as (h & mi & Hshown & _ & _ & Hneg).
  exists h, mi. split; [exact Hshown|].
  destruct Hneg as [Hsum _]; [reflexivity | discriminate | exact Hsum].
Defined.

(** ** Reports page: when the grouping completes *)

(** X16: the grouping of the fetched reports completes exactly when every
    report carries its embedded schedule, no user id is a property name
    inherited from Object.prototype, and the first report of each user
    carries the embedded profile; otherwise a TypeError ends the page.
    Later reports of a user need no profile. *)
Theorem grouping_completes_exactly_when_presentable
    (parseISO : string -> option Z) (reports : list ReportJoined) :
  is_Some (Reports.reportsByUser parseISO (Some reports)) <->
  forall before r after,
    reports = before ++ r :: after -> presentable before r.
Proof.
  assert (Hfree : own_keys_free ∅)
    by (intros uid g Hg; rewrite lookup_empty in Hg; discriminate).
  pose proof (reduce_succeeds_iff parseISO reports [] ∅
                (grouped_start parseISO) Hfree) as Hiff.
  simpl in Hiff |- *. split.
  - intros Hsome before r after E. exact (proj1 Hiff Hsome before r after E).
  - intros Hall. apply (proj2 Hiff). exact Hall.
Qed.

(** ** Reports page: the tables of the users *)

(** X17: when the grouping completes, every fetched report is a row of the
    table of one user, the owner of its schedule; the rows of a table are
    exactly that user's fetched reports, in the order they were fetched; no
    table is empty, and the name over a table is the profile name embedded
    in the first of its rows. *)
Theorem grouping_partitions_the_reports
    (parseISO : string -> option Z) (reports : list ReportJoined)
    (groups : gmap string Reports.Group) :
  Reports.reportsByUser parseISO (Some reports) = Some groups ->
  (forall r, In r reports ->
     exists uid g,
       owner_key r = Some uid /\ groups !! uid = Some g /\
       In r (Reports.group_reports g))
  /\ (forall uid g,
        groups !! uid = Some g ->
        Reports.group_reports g = reports_of uid reports /\
        exists first rest (s : ScheduleJoined),
          Reports.group_reports g = first :: rest /\
          joined_schedules first = Some s /\
          joined_profiles s = Some (Reports.userName g)).
Proof.
  intros Hgroups. split.
  - intros r Hin. eapply grouped_reports_have_owner; eassumption.
  - intros uid g Hg.
    pose proof (reportsByUser_grouped parseISO _ _ Hgroups uid) as Hinv.
    rewrite Hg in Hinv. destruct Hinv as (Hrows & _ & _).
    split; [exact Hrows|]. rewrite Hrows.
    assert (Hnamed : named reports groups).
    { simpl in Hgroups.
      apply (reduce_named parseISO reports [] ∅ groups Hgroups).
      - apply grouped_start.
      - intros k g0 Hk. rewrite lookup_empty in Hk. discriminate. }
    exact (Hnamed uid g Hg).
Qed.

Lemma grouping_partitions_the_reports_witness :
  exists groups g,
    Reports.reportsByUser Time.instant (Some Sample.fetched) = Some groups /\
    groups !! "u2" = Some g /\
    Reports.group_reports g = Sample.fetched /\
    Reports.userName g = "bob".
Proof.
  destruct (reduce_total Time.instant Sample.fetched ∅ sample_is_groupable)
    as [groups Hgroups].
  destruct (grouping_partitions_the_reports Time.instant Sample.fetched groups
              Hgroups) as [Hrows Htables].
  destruct (Hrows (embed_schedule Sample.store
                     (Sample.report "r1" "s1" "2024-12-02T09:00"
                        "2024-12-02T17:00" "60")) (or_introl eq_refl))
    as (uid & g & Hown & Hg & _).
  injection Hown as <-.
  destruct (Htables _ g Hg) as (Hg_rows & first & rest & s & Hfirst & Hs & Hname).
  exists groups, g. split; [exact Hgroups | split; [exact Hg|]].
  split; [exact Hg_rows|].
  rewrite Hg_rows in Hfirst. injection Hfirst as <- <-.
  injection Hs as <-. injection Hname as <-. reflexivity.
Defined.

(** ** Reports page: the order of the rows *)

Lemma strongly_sorted_filter {A : Type} (R : relation A) (P : A -> Prop)
    `{forall x, Decision (P x)} (l : list A) :
  StronglySorted R l -> StronglySorted R (filter P l).
Proof.
  induction 1 as [|x l Hl IH Hx]; [constructor|].
  rewrite filter_cons. case_decide; [|exact IH].
  constructor; [exact IH|].
  apply Forall_forall. intros y Hy. apply list_elem_of_filter in Hy as [_ Hy].
  rewrite Forall_forall in Hx. apply Hx, Hy.
Qed.

Lemma select_reports_ascending {reads : Reading} (lower upper : string)
    (st : Store) (fetched : list ReportJoined) :
  select_reports lower upper st = Some fetched ->
  StronglySorted
    (ascending (fun r : ReportJoined => read_instant (actual_start_time r)))
    fetched.
Proof.
  unfold select_reports. intros H.
  destruct (read_instant lower) as [lo|]; [|discriminate].
  destruct (read_instant upper) as [hi|]; [|discriminate].
  simpl in H. injection H as <-.
  apply (strongly_sorted_fmap (embed_schedule st)
           (fun r : ReportJoined => read_instant (actual_start_time r))).
  apply (order_by_strongly_ascending
           (fun r : Report => read_instant (actual_start_time r))).
Qed.

(** X18: the reports of a window are fetched in ascending order of
    actual_start_time, and the grouping keeps that order: in the table of
    every user each row starts no later than all the rows below it. *)
Theorem rows_are_in_ascending_order
    (parseISO : string -> option Z) (lower upper : string) (st : Store)
    (fetched : list ReportJoined) (groups : gmap string Reports.Group) :
  select_reports lower upper st = Some fetched ->
  Reports.reportsByUser parseISO (Some fetched) = Some groups ->
  StronglySorted (ascending starts_at) fetched /\
  map_Forall
    (fun _ g => StronglySorted (ascending starts_at) (Reports.group_reports g))
    groups.
Proof.
  intros Hfetched Hgroups.
  assert (Hsorted : StronglySorted (ascending starts_at) fetched)
    by exact (select_reports_ascending _ _ _ _ Hfetched).
  split; [exact Hsorted|].
  intros uid g Hg.
  pose proof (reportsByUser_grouped parseISO _ _ Hgroups uid) as Hinv.
  rewrite Hg in Hinv. destruct Hinv as (Hrows & _ & _).
  rewrite Hrows. unfold reports_of. apply strongly_sorted_filter, Hsorted.
Qed.

Lemma rows_are_in_ascending_order_witness :
  exists groups,
    Reports.reportsByUser Time.instant (Some Sample.fetched) = Some groups /\
    map_Forall
      (fun _ g => StronglySorted (ascending starts_at) (Reports.group_reports g))
      groups.
Proof.
  destruct (reduce_total Time.instant Sample.fetched ∅ sample_is_groupable)
    as [groups Hgroups].
  exists groups. split; [exact Hgroups|].
  apply (rows_are_in_ascending_order Time.instant "2024-12-01" "2025-01-01"
           Sample.store Sample.fetched groups); [reflexivity | exact Hgroups].
Defined.

(** ** Reports page after a member was deleted *)

Lemma first_occurrence {A : Type} (P : A -> Prop) `{forall x, Decision (P x)}
    (l : list A) (x : A) :
  In x l -> P x ->
  exists before y after,
    l = before ++ y :: after /\ P y /\ forall z, In z before -> ~ P z.
Proof.
  induction l as [|a l IH]; intros Hin Hx; [destruct Hin|].
  destruct (decide (P a)) as [Ha|Ha].
  - exists [], a, l. split; [reflexivity | split; [exact Ha | intros z []]].
  - destruct Hin as [->|Hin]; [contradiction|].
    destruct (IH Hin Hx) as (before & y & after & -> & Hy & Hbefore).
    exists (a :: before), y, after.
    split; [reflexivity | split; [exact Hy|]].
    intros z [<-|Hz]; [exact Ha | apply Hbefore, Hz].
Qed.

Lemma removed_profile_not_found (uid : string) (l : list Profile) :
  List.find (fun p => String.eqb (profile_id p) uid)
    (List.filter (fun p => negb (String.eqb (profile_id p) uid)) l) = None.
Proof.
  induction l as [|p l IH]; simpl; [reflexivity|].
  destruct (String.eqb (profile_id p) uid) eqn:E; simpl; [exact IH|].
  rewrite E. exact IH.
Qed.

Lemma nobody_not_found (l : list Profile) :
  List.find (fun p => id_matches None (profile_id p)) l = None.
Proof. induction l as [|p l IH]; simpl; [reflexivity | exact IH]. Qed.

Lemma delete_flow
    (is_email : string -> bool) (env : Env) (formData : FormData) (st : Store)
    (uid : string) :
  admin_flag (profile_of (auth_user env) st) = true ->
  formData_get formData "intent" = Some "delete" ->
  formData_get formData "user_id" = Some uid ->
  store_accepts env = true ->
  run (Members.action is_email env formData) st =
    {| calls := [DeleteProfile (Some uid)];
       final := {| profiles := profiles_except uid st;
                   schedules := schedules st;
                   reports := reports st |};
       answer := Success |}.
Proof.
  intros Hadmin Hintent Hid Haccepts.
  unfold Members.action. step_handler. rewrite Hadmin. simpl.
  rewrite Hintent, Hid. simpl. rewrite Haccepts. reflexivity.
Qed.

(** X19: profiles are deleted without their schedules and reports, and
    the Reports page cannot show what is left: once an administrator has
    deleted a member, every window that holds a report of one of that
    member's schedules makes the grouping throw, so the page fails for all
    users of that month. *)
Theorem reports_page_fails_after_member_deletion
    (parseISO : string -> option Z) (is_email : string -> bool) (env : Env)
    (formData : FormData) (st : Store) (uid lower upper : string)
    (fetched : list ReportJoined) (r : ReportJoined) (s : ScheduleJoined) :
  admin_flag (profile_of (auth_user env) st) = true ->
  formData_get formData "intent" = Some "delete" ->
  formData_get formData "user_id" = Some uid ->
  store_accepts env = true ->
  select_reports lower upper st = Some fetched ->
  In r fetched -> joined_schedules r = Some s -> user_id s = Some uid ->
  let st' := final (run (Members.action is_email env formData) st) in
  Reports.reportsByUser parseISO (select_reports lower upper st') = None.
Proof.
  intros Hadmin Hintent Hid Haccepts Hfetched Hin Hs Huid st'.
  subst st'. rewrite (delete_flow is_email env formData st uid
                        Hadmin Hintent Hid Haccepts). cbn [final].
  set (st' := {| profiles := profiles_except uid st;
                 schedules := schedules st; reports := reports st |}).
  unfold select_reports in Hfetched |- *.
  destruct (read_instant lower) as [lo|]; [|discriminate].
  destruct (read_instant upper) as [hi|]; [|discriminate].
  simpl in Hfetched. injection Hfetched as <-. simpl option_bind.
  cbn [mbind option_bind]. change (reports st') with (reports st).
  set (rows := order_by (fun r : Report => read_instant (actual_start_time r))
                 (List.filter
                    (fun r : Report =>
                       in_window lo hi (read_instant (actual_start_time r)))
                    (reports st))) in *.
  (* every row of the deleted member's key has lost its profile *)
  assert (Hlost : forall row (s' : ScheduleJoined),
             joined_schedules (embed_schedule st' row) = Some s' ->
             Reports.property_name (user_id s') = uid ->
             joined_profiles s' = None).
  { intros row s' Hs' Hkey. unfold embed_schedule in Hs'. simpl in Hs'.
    destruct (List.find _ (schedules st)) as [s0|]; simpl in Hs'; [|discriminate].
    injection Hs' as <-. simpl in *.
    destruct (user_id s0) as [u|]; simpl in *.
    - subst u. unfold profiles_except. rewrite removed_profile_not_found.
      reflexivity.
    - rewrite nobody_not_found. reflexivity. }
  (* the report of the hypothesis is still fetched, under the same key *)
  apply list_elem_of_In, list_elem_of_fmap in Hin as (row & -> & Hrow).
  assert (Hkey : owner_key (embed_schedule st' row) = Some uid).
  { unfold owner_key, embed_schedule in Hs |- *. simpl in Hs |- *.
    destruct (List.find _ (schedules st)) as [s0|]; simpl in Hs |- *;
      [|discriminate].
    injection Hs as <-. simpl in Huid. rewrite Huid. reflexivity. }
  destruct (Reports.reportsByUser parseISO (Some (embed_schedule st' <$> rows)))
    as [groups|] eqn:Hgroups; [|reflexivity].
  exfalso.
  assert (Hsome : is_Some (Reports.reportsByUser parseISO
                             (Some (embed_schedule st' <$> rows))))
    by (rewrite Hgroups; eauto).
  destruct (first_occurrence (fun x => owner_key x = Some uid)
              (embed_schedule st' <$> rows) (embed_schedule st' row))
    as (before & y & after & E & Hy & Hbefore).
  { apply list_elem_of_In, list_elem_of_fmap. eauto. }
  { exact Hkey. }
  destruct (proj1 (reportsByUser_succeeds_iff parseISO _) Hsome before y after E)
    as (sy & Hsy & _ & Hprofile).
  assert (Hy_key : Reports.property_name (user_id sy) = uid).
  { unfold owner_key in Hy. rewrite Hsy in Hy. simpl in Hy. congruence. }
  assert (Hy_in : In y (embed_schedule st' <$> rows))
    by (rewrite E; apply in_elt).
  apply list_elem_of_In, list_elem_of_fmap in Hy_in as (row_y & -> & _).
  rewrite (Hlost row_y sy Hsy Hy_key) in Hprofile.
  destruct Hprofile as [x Hx]; [|discriminate].
  rewrite Hy_key. exact Hbefore.
Qed.

Lemma reports_page_fails_after_member_deletion_witness :
  let st' := final (run (Members.action Sample.is_email Sample.admin_env
                           [("intent", "delete"); ("user_id", "u2")])
                        Sample.store) in
  is_Some (Reports.reportsByUser Time.instant
             (select_reports "2024-12-01" "2025-01-01" Sample.store)) /\
  Reports.reportsByUser Time.instant
    (select_reports "2024-12-01" "2025-01-01" st') = None.
Proof.
  intros st'. split.
  - apply (reduce_total Time.instant Sample.fetched ∅ sample_is_groupable).
  - apply (reports_page_fails_after_member_deletion Time.instant Sample.is_email
             Sample.admin_env [("intent", "delete"); ("user_id", "u2")]
             Sample.store "u2" "2024-12-01" "2025-01-01" Sample.fetched
             (embed_schedule Sample.store
                (Sample.report "r1" "s1" "2024-12-02T09:00" "2024-12-02T17:00" "60"))
             (embed_profile Sample.store (Sample.schedule "s1" "u2" "2024-12-02")));
      try reflexivity.
    left. reflexivity.
Defined.

(** ** Members loader: the order of the list *)

(** X20: whatever the store's reading of timestamps, for an administrator
    the members read lists every profile, each before all those whose
    created_at the store reads as a later instant. *)
Theorem members_are_listed_by_creation
    {reads : Reading} (env : Env) (st : Store) :
  admin_flag (profile_of (auth_user env) st) = true ->
  exists members,
    Members.loader env st = Json members /\
    members ≡ₚ profiles st /\
    StronglySorted (ascending (fun p => read_instant (created_at p))) members.
Proof.
  intros Hadmin. unfold Members.loader. rewrite Hadmin. simpl.
  eexists. split; [reflexivity|].
  split; [apply order_by_perm | apply order_by_strongly_ascending].
Qed.

Lemma members_are_listed_by_creation_witness :
  exists members,
    Members.loader Sample.admin_env Sample.store = Json members /\
    members ≡ₚ profiles Sample.store /\
    StronglySorted (ascending (fun p => Time.instant (created_at p))) members.
Proof.
  apply (members_are_listed_by_creation (reads := instant_reading)). reflexivity.
Defined.

(** ** Reports loader: the window of the months January to November *)

Lemma month_length (y m : Z) :
  1 <= m <= 11 ->
  Time.days_from_civil y (m + 1) 1 - Time.days_from_civil y m 1 =
  Time.days_in_month y m.
Proof.
  intros Hm.
  assert (Hcases : m = 1 \/ m = 2 \/ m = 3 \/ m = 4 \/ m = 5 \/ m = 6 \/
                   m = 7 \/ m = 8 \/ m = 9 \/ m = 10 \/ m = 11) by lia.
  unfold Time.days_from_civil, Time.days_in_month, Time.is_leap.
  repeat destruct Hcases as [->|Hcases]; try subst m; simpl;
    repeat match goal with
           | |- context [(?a + 9) mod 12] =>
               let v := eval vm_compute in ((a + 9) mod 12) in
               change ((a + 9) mod 12) with v
           | |- context [(153 * ?a + 2) / 5] =>
               let v := eval vm_compute in ((153 * a + 2) / 5) in
               change ((153 * a + 2) / 5) with v
           end;
    repeat match goal with
           | |- context [?a =? 0] => destruct (Z.eqb_spec a 0)
           end; simpl;
    Z.to_euclidean_division_equations; lia.
Qed.

Lemma digit_of_digit_char (d : Z) :
  0 <= d <= 9 -> JS.digit (JS.digit_char d) = Some d.
Proof.
  intros Hd.
  assert (d = 0 \/ d = 1 \/ d = 2 \/ d = 3 \/ d = 4 \/ d = 5 \/ d = 6 \/
          d = 7 \/ d = 8 \/ d = 9) as Hcases by lia.
  repeat destruct Hcases as [->|Hcases]; try subst d; reflexivity.
Qed.

(** A number from 1000 to 9999 is rendered as its four decimal digits. *)
Lemma decimal_four_digits (y : Z) :
  1000 <= y <= 9999 ->
  JS.decimal y =
  String (JS.digit_char (y / 10 / 10 / 10 mod 10))
    (String (JS.digit_char (y / 10 / 10 mod 10))
       (String (JS.digit_char (y / 10 mod 10))
          (String (JS.digit_char (y mod 10)) ""))).
Proof.
  intros Hy. unfold JS.decimal.
  assert (Hlog : 9 <= Z.log2 y).
  { change 9 with (Z.log2 512). apply Z.log2_le_mono. lia. }
  destruct (Z.to_nat (Z.log2 y)) as [|[|[|fuel]]] eqn:Hfuel; try lia.
  cbn [JS.render].
  destruct (Z.eqb_spec (y / 10) 0); [Z.to_euclidean_division_equations; lia|].
  destruct (Z.eqb_spec (y / 10 / 10) 0); [Z.to_euclidean_division_equations; lia|].
  destruct (Z.eqb_spec (y / 10 / 10 / 10) 0);
    [Z.to_euclidean_division_equations; lia|].
  destruct (Z.eqb_spec (y / 10 / 10 / 10 / 10) 0);
    [reflexivity | Z.to_euclidean_division_equations; lia].
Qed.

(** The day of a date written with eight digits. *)
Lemma date_of_digits (a b c d e f g h : Z) :
  0 <= a <= 9 -> 0 <= b <= 9 -> 0 <= c <= 9 -> 0 <= d <= 9 ->
  0 <= e <= 9 -> 0 <= f <= 9 -> 0 <= g <= 9 -> 0 <= h <= 9 ->
  Time.read_date
    (String (JS.digit_char a) (String (JS.digit_char b)
       (String (JS.digit_char c) (String (JS.digit_char d)
          (String "-" (String (JS.digit_char e) (String (JS.digit_char f)
             (String "-" (String (JS.digit_char g)
                (String (JS.digit_char h) "")))))))))) =
  (let y := 10 * (10 * (10 * (10 * 0 + a) + b) + c) + d in
   let m := 10 * (10 * 0 + e) + f in
   let day := 10 * (10 * 0 + g) + h in
   if (1 <=? m) && (m <=? 12) && (1 <=? day) && (day <=? Time.days_in_month y m)
   then Some (Time.days_from_civil y m day, "")
   else None).
Proof.
  intros. unfold Time.read_date, Time.expect. simpl.
  repeat (rewrite digit_of_digit_char by assumption; simpl).
  reflexivity.
Qed.

Ltac first_date a b c d Ha Hb Hc Hd e f :=
  exact (date_of_digits a b c d e f 0 1 Ha Hb Hc Hd
           ltac:(lia) ltac:(lia) ltac:(lia) ltac:(lia)).

(** The two bounds of the window of month [m] of a four-digit year [y] are
    plain dates: the first day of the month and the first day of the
    next. *)
Lemma default_bound_dates (y m : Z) :
  1000 <= y <= 9999 -> 1 <= m <= 11 ->
  Time.read_date (Reports.lower_bound (JS.toString (Some y)) (JS.toString (Some m)))
    = Some (Time.days_from_civil y m 1, "") /\
  Time.read_date (Reports.upper_bound (JS.toString (Some y)) (JS.toString (Some m)))
    = Some (Time.days_from_civil y (m + 1) 1, "").
Proof.
  intros Hy Hm.
  assert (Htext : JS.toString (Some y) = JS.decimal y).
  { unfold JS.toString. destruct (Z.ltb_spec y 0); [lia | reflexivity]. }
  rewrite Htext, (decimal_four_digits y Hy).
  set (a := y / 10 / 10 / 10 mod 10). set (b := y / 10 / 10 mod 10).
  set (c := y / 10 mod 10). set (d := y mod 10).
  assert (Ha : 0 <= a <= 9) by (subst a; Z.to_euclidean_division_equations; lia).
  assert (Hb : 0 <= b <= 9) by (subst b; Z.to_euclidean_division_equations; lia).
  assert (Hc : 0 <= c <= 9) by (subst c; Z.to_euclidean_division_equations; lia).
  assert (Hd : 0 <= d <= 9) by (subst d; Z.to_euclidean_division_equations; lia).
  assert (Hvalue : 10 * (10 * (10 * (10 * 0 + a) + b) + c) + d = y)
    by (subst a b c d; Z.to_euclidean_division_equations; lia).
  assert (Hcases : m = 1 \/ m = 2 \/ m = 3 \/ m = 4 \/ m = 5 \/ m = 6 \/
                   m = 7 \/ m = 8 \/ m = 9 \/ m = 10 \/ m = 11) by lia.
  repeat destruct Hcases as [->|Hcases]; try subst m;
    (split;
     (etransitivity;
      [ first [ first_date a b c d Ha Hb Hc Hd 0 1
              | first_date a b c d Ha Hb Hc Hd 0 2
              | first_date a b c d Ha Hb Hc Hd 0 3
              | first_date a b c d Ha Hb Hc Hd 0 4
              | first_date a b c d Ha Hb Hc Hd 0 5
              | first_date a b c d Ha Hb Hc Hd 0 6
              | first_date a b c d Ha Hb Hc Hd 0 7
              | first_date a b c d Ha Hb Hc Hd 0 8
              | first_date a b c d Ha Hb Hc Hd 0 9
              | first_date a b c d Ha Hb Hc Hd 1 0
              | first_date a b c d Ha Hb Hc Hd 1 1
              | first_date a b c d Ha Hb Hc Hd 1 2 ]
      | cbv zeta; rewrite Hvalue; unfold Time.days_in_month; simpl;
        try destruct (Time.is_leap y); reflexivity ])).
Qed.

(** The reading of the samples reads plain dates. *)
Lemma instant_reads_plain_dates : reads_plain_dates (reads := instant_reading).
Proof.
  intros s days Hdate. unfold read_instant, instant_reading, Time.instant.
  rewrite Hdate. reflexivity.
Qed.

(** What the window read of month [m] of year [y] returns, for a store
    that reads plain dates. *)
Lemma window_of_month {reads : Reading} (y m : Z) (st : Store) :
  reads_plain_dates ->
  1000 <= y <= 9999 -> 1 <= m <= 11 ->
  select_reports (Reports.lower_bound (JS.toString (Some y)) (JS.toString (Some m)))
                 (Reports.upper_bound (JS.toString (Some y)) (JS.toString (Some m)))
                 st =
  Some (embed_schedule st <$>
          order_by (fun r : Report => read_instant (actual_start_time r))
            (List.filter
               (fun r : Report =>
                  in_window (first_of_month y m) (first_of_month y (m + 1))
                            (read_instant (actual_start_time r)))
               (reports st))).
Proof.
  intros Hreads Hy Hm.
  destruct (default_bound_dates y m Hy Hm) as [Hlo Hhi].
  unfold select_reports. rewrite (Hreads _ _ Hlo), (Hreads _ _ Hhi).
  reflexivity.
Qed.

Lemma render_nonempty (fuel : nat) (n : Z) (c : ascii) (acc : string) :
  JS.render fuel n (String c acc) <> "".
Proof.
  revert n c acc. induction fuel as [|fuel IH]; intros n c acc; simpl.
  - discriminate.
  - destruct (n / 10 =? 0); [discriminate | apply IH].
Qed.

(** The text of a number is never empty, so a year or a month given in
    the query as such a text is the one the loader uses. *)
Lemma or_else_toString (x : JS.num) (other : string) :
  JS.or_else (Some (JS.toString x)) other = JS.toString x.
Proof.
  assert (Hne : JS.toString x <> "").
  { destruct x as [z|]; simpl; [|discriminate].
    assert (Hdec : forall n, JS.decimal n <> "").
    { intros n. unfold JS.decimal. cbn [JS.render].
      destruct (n / 10 =? 0); [discriminate | apply render_nonempty]. }
    destruct (z <? 0); [discriminate | apply Hdec]. }
  unfold JS.or_else. destruct (JS.toString x); [congruence | reflexivity].
Qed.

(** X15: for a store that reads plain dates, whatever else it reads, an
    administrator who asks for month m (1 to 11) of a four-digit year y
    gets the reports of that calendar month, of all users: those of the
    table whose actual_start_time the store reads as an instant at or after
    the first instant of month m of year y and before the first instant of
    month m+1, a span of exactly the days of that month. *)
Theorem month_window_is_the_calendar_month
    {reads : Reading} (env : Env) (now : Reports.Clock)
    (params : Reports.URLSearchParams) (st : Store) (y m : Z) :
  reads_plain_dates ->
  admin_flag (profile_of (auth_user env) st) = true ->
  Reports.searchParams_get params "year" = Some (JS.toString (Some y)) ->
  Reports.searchParams_get params "month" = Some (JS.toString (Some m)) ->
  1000 <= y <= 9999 -> 1 <= m <= 11 ->
  let first := first_of_month y m in
  let next := first_of_month y (m + 1) in
  next - first = Time.days_in_month y m * 86400000 /\
  exists fetched,
    Reports.loader env now params st =
      Json {| Reports.data_reports := Some fetched;
              Reports.data_year := JS.toString (Some y);
              Reports.data_month := JS.toString (Some m) |} /\
    fetched ≡ₚ embed_schedule st <$>
                 List.filter
                   (fun r : Report =>
                      in_window first next (read_instant (actual_start_time r)))
                   (reports st).
Proof.
  intros Hreads Hadmin Hyear Hmonth Hy Hm first next. split.
  - subst first next. unfold first_of_month.
    rewrite <- Z.mul_sub_distr_r. f_equal. apply month_length, Hm.
  - eexists. split.
    + unfold Reports.loader. rewrite Hadmin. simpl negb. cbv iota.
      rewrite Hyear, Hmonth, !or_else_toString.
      rewrite (window_of_month y m st Hreads Hy Hm). reflexivity.
    + rewrite order_by_perm. reflexivity.
Qed.

Lemma month_window_is_the_calendar_month_witness :
  first_of_month 2024 12 - first_of_month 2024 11 = 30 * 86400000 /\
  exists fetched,
    Reports.loader Sample.admin_env Sample.clock
      [("year", "2024"); ("month", "11")] store_with_november =
      Json {| Reports.data_reports := Some fetched;
              Reports.data_year := "2024"; Reports.data_month := "11" |} /\
    fetched ≡ₚ [embed_schedule store_with_november november_report].
Proof.
  apply (month_window_is_the_calendar_month (reads := instant_reading)
           Sample.admin_env Sample.clock [("year", "2024"); ("month", "11")]
           store_with_november 2024 11 instant_reads_plain_dates
           eq_refl eq_refl eq_refl);
    lia.
Defined.

(** X21: for a store that reads plain dates, opened without a year and a
    month (or with empty ones) in any month from January to November of a
    four-digit year, the Reports page of an administrator gets the reports
    of the current calendar month, all users together: those whose
    actual_start_time the store reads as an instant at or after the first
    instant of the month and before the first instant of the next, in the
    order of the read. *)
Theorem default_window_is_the_current_month
    {reads : Reading} (env : Env) (now : Reports.Clock)
    (params : Reports.URLSearchParams) (st : Store) :
  reads_plain_dates ->
  admin_flag (profile_of (auth_user env) st) = true ->
  Reports.searchParams_get params "year" = None \/
    Reports.searchParams_get params "year" = Some "" ->
  Reports.searchParams_get params "month" = None \/
    Reports.searchParams_get params "month" = Some "" ->
  1000 <= Reports.getFullYear now <= 9999 ->
  0 <= Reports.getMonth now <= 10 ->
  let y := Reports.getFullYear now in
  let m := Reports.getMonth now + 1 in
  Reports.loader env now params st =
    Json {| Reports.data_reports :=
              Some (embed_schedule st <$>
                      order_by (fun r : Report => read_instant (actual_start_time r))
                        (List.filter
                           (fun r : Report =>
                              in_window (first_of_month y m) (first_of_month y (m + 1))
                                        (read_instant (actual_start_time r)))
                           (reports st)));
            Reports.data_year := JS.toString (Some y);
            Reports.data_month := JS.toString (Some m) |}.
Proof.
  intros Hreads Hadmin Hyear Hmonth Hy Hm y m.
  unfold Reports.loader. rewrite Hadmin. simpl negb. cbv iota.
  assert (Hy_text : JS.or_else (Reports.searchParams_get params "year")
                      (JS.toString (Some y)) = JS.toString (Some y))
    by (destruct Hyear as [-> | ->]; reflexivity).
  assert (Hm_text : JS.or_else (Reports.searchParams_get params "month")
                      (JS.toString (JS.add (Some (Reports.getMonth now)) (Some 1)))
                    = JS.toString (Some m))
    by (destruct Hmonth as [-> | ->]; reflexivity).
  fold y. rewrite Hy_text, Hm_text. f_equal. f_equal.
  apply window_of_month; [exact Hreads | exact Hy | subst m; lia].
Qed.

Lemma default_window_is_the_current_month_witness :
  Reports.loader Sample.admin_env Sample.clock [] Sample.store =
    Json {| Reports.data_reports := Some [];
            Reports.data_year := "2024"; Reports.data_month := "5" |}.
Proof.
  rewrite (default_window_is_the_current_month (reads := instant_reading)
             Sample.admin_env Sample.clock [] Sample.store
             instant_reads_plain_dates eq_refl
             (or_introl eq_refl) (or_introl eq_refl));
    [reflexivity | simpl; lia | simpl; lia].
Defined.

(** ** Further instances *)

Lemma schedule_loader_lists_own_schedules_witness :
  Schedule.loader Sample.anonymous_env Sample.store = Json [].
Proof.
  destruct (schedule_loader_lists_own_schedules Sample.anonymous_env Sample.store)
    as (listed & Hlisted & _ & _ & _ & Hnone).
  rewrite Hlisted, (Hnone eq_refl). reflexivity.
Defined.

Lemma invite_form_messages_witness :
  Members.field_paragraph
    (Some (answer (run (Members.action Sample.is_email Sample.admin_env
                          [("intent", "invite"); ("email", "nobody");
                           ("full_name", "carol")]) Sample.store))) "email"
  = Some (Some (Text "有効なメールアドレスを入力してください"))
  /\ Members.field_paragraph
       (Some (answer (run (Members.action Sample.is_email Sample.member_env
                             [("intent", "invite"); ("email", "nobody");
                              ("full_name", "carol")]) Sample.store))) "email"
     = None.
Proof.
  destruct (invite_form_messages Sample.is_email Sample.admin_env Sample.store)
    as [Hshown _].
  destruct (invite_form_messages Sample.is_email Sample.member_env Sample.store)
    as [_ Hsilent].
  split.
  - apply (Hshown [("intent", "invite"); ("email", "nobody"); ("full_name", "carol")]
             "nobody" "carol"); reflexivity.
  - apply Hsilent. reflexivity.
Defined.

Lemma grouping_completes_exactly_when_presentable_witness :
  presentable []
    (embed_schedule Sample.store
       (Sample.report "r1" "s1" "2024-12-02T09:00" "2024-12-02T17:00" "60"))
  /\ Reports.reportsByUser Time.instant
       (Some [embed_schedule Sample.store
                (Sample.report "r9" "s9" "2024-12-02T09:00" "2024-12-02T17:00" "60")])
     = None.
Proof.
  split.
  - apply (proj1 (grouping_completes_exactly_when_presentable Time.instant
                    Sample.fetched)
             (reduce_total Time.instant Sample.fetched ∅ sample_is_groupable)
             [] _ _ eq_refl).
  - reflexivity.
Defined.
